(** * The ledger core of the-wolf-of-ayup

    A shallow embedding of [src/services/TransactionService.ts] together with
    the repository classes it drives ([UserDAO], [StockDAO]) and the
    properties of the ledger operations [buyStock], [sellStock],
    [wireToUser] and [wireToEntity].

    Modelling choices.
    - Money and quantities are the integer columns of the store; they are
      embedded as [Z] (the code's [number] on the integer range).
    - The relational store is a record of four tables.  [users] and [stocks]
      are keyed by their primary key ([uid], [ticker]); [users_stocks] and
      [transactions] are append-only and kept in insertion order.
    - An asynchronous repository call is a computation in a state-and-exception
      monad over the store: a rejected promise is [Throw], and what was
      written before the rejection stays written unless the caller rolls back.
    - [Date.now()] is an input of each operation.
    - Connectivity failures of the store are outside the model.  The
      connection pool is left out of [TransactionService] as first embedded
      and added in [WithPool], which repeats the four operations with every
      [connect] and [release]; [StockService] is embedded with the pool.
    - Of utils/helpers, the embed navigator and the two helpers that go
      through the stock service are embedded, the random draw and the
      floating-point step being inputs; the item action loader is embedded
      over the directory listings and modules it is given. *)

From Stdlib Require Import ZArith Lia.
From stdpp Require Import gmap strings list fin_maps pretty.

Local Open Scope Z_scope.

(** ** Data model *)

(** A row of [users].  Only the columns the ledger reads or writes. *)
Record User := mkUser {
  uid : string;
  balance : Z;
  credit_limit : Z;
  loan_balance : Z;
}.

(** A row of [stocks]. *)
Record Stock := mkStock {
  ticker : string;
  price : Z;
}.

(** [UserStock]: a timestamped snapshot of a position. *)
Record UserStock := mkUserStock {
  us_uid : string;
  us_ticker : string;
  quantity : Z;
  timestamp : Z;
}.

Inductive StockTransactionType := buy | sell.

Record StockTransaction := mkStockTransaction {
  tx_type : StockTransactionType;
  tx_uid : string;
  tx_ticker : string;
  balance_change : Z;
  credit_change : Z;
  tx_quantity : Z;
  tx_price : Z;
  total_price : Z;
  tx_timestamp : Z;
}.

(** [WireTransaction]; its [type] field is the constant ['wire']. *)
Record WireTransaction := mkWireTransaction {
  wire_uid : string;
  wire_balance_change : Z;
  destination : string;
  is_destination_user : bool;
  wire_timestamp : Z;
}.

Inductive Transaction :=
| TStock (t : StockTransaction)
| TWire (w : WireTransaction).

(** The store. *)
Record Db := mkDb {
  users : gmap string User;
  stocks : gmap string Stock;
  users_stocks : list UserStock;
  transactions : list Transaction;
}.

(** Everything a ledger call can be rejected with.  [Error] is the plain
    JavaScript [Error]; [DatabaseError] is a statement the store refused,
    carrying the statement text. *)
Inductive error :=
| UserNotFoundError (u : string)
| StockNotFoundError (t : string)
| InsufficientBalanceError (u : string) (bal cost : Z)
| InsufficientStockQuantityError (u : string) (owned requested : Z)
| Error (message : string)
| DatabaseError (query : string).

Inductive result (A : Type) :=
| Ok (a : A)
| Throw (e : error).
Arguments Ok {A} a.
Arguments Throw {A} e.

(** ** The monad of repository calls *)

Definition M (A : Type) : Type := Db -> result A * Db.

Definition ret {A} (a : A) : M A := fun db => (Ok a, db).

Definition throw {A} (e : error) : M A := fun db => (Throw e, db).

Definition bind {A B} (m : M A) (k : A -> M B) : M B :=
  fun db =>
    match m db with
    | (Ok a, db') => k a db'
    | (Throw e, db') => (Throw e, db')
    end.

Notation "'do' x <- m ; k" := (bind m (fun x => k))
  (at level 10, x name, m at level 100, k at level 200).
Notation "m ;; k" := (bind m (fun _ => k))
  (at level 100, k at level 200, right associativity).

(** [BEGIN ... COMMIT] with [ROLLBACK] in the [catch]: the body's writes are
    kept when it returns and discarded when it throws; the error is
    re-thrown. *)
Definition atomically {A} (body : M A) : M A :=
  fun db =>
    match body db with
    | (Ok a, db') => (Ok a, db')
    | (Throw e, _) => (Throw e, db)
    end.

(** ** Sparse updates ([Partial<User>], [Partial<Stock>])

    An object literal is its list of own keys in insertion order, each with
    its value. *)

Inductive user_field := f_balance | f_credit_limit | f_loan_balance.

Inductive stock_field := f_price.

Definition user_field_name (f : user_field) : string :=
  match f with
  | f_balance => "balance"
  | f_credit_limit => "credit_limit"
  | f_loan_balance => "loan_balance"
  end.

Definition stock_field_name (f : stock_field) : string :=
  match f with
  | f_price => "price"
  end.

Definition set_user_field (u : User) (kv : user_field * Z) : User :=
  match kv with
  | (f_balance, v) => mkUser (uid u) v (credit_limit u) (loan_balance u)
  | (f_credit_limit, v) => mkUser (uid u) (balance u) v (loan_balance u)
  | (f_loan_balance, v) => mkUser (uid u) (balance u) (credit_limit u) v
  end.

Definition set_stock_field (s : Stock) (kv : stock_field * Z) : Stock :=
  match kv with
  | (f_price, v) => mkStock (ticker s) v
  end.

(** [keys.map((key, index) => `${key} = $${index + 1}`).join(", ")] *)
Definition set_clause (keys : list string) : string :=
  String.concat ", "
    (imap (fun index key => key +:+ " = $" +:+ pretty (index + 1)%nat) keys).

(** ** The store's answer to the statements the repositories send *)

(** [UPDATE users SET ... WHERE uid = $n].  A statement with nothing between
    [SET] and [WHERE] is not SQL: the store refuses it and writes nothing.
    Otherwise the row with that key, if there is one, gets the assignments. *)
Definition query_update_users (text : string) (fields : list (user_field * Z))
    (u : string) : M unit :=
  fun db =>
    match fields with
    | [] => (Throw (DatabaseError text), db)
    | _ :: _ =>
        (Ok tt,
         mkDb (alter (fun row => foldl set_user_field row fields) u (users db))
              (stocks db) (users_stocks db) (transactions db))
    end.

(** [UPDATE stocks SET ... WHERE ticker = $n]. *)
Definition query_update_stocks (text : string) (fields : list (stock_field * Z))
    (t : string) : M unit :=
  fun db =>
    match fields with
    | [] => (Throw (DatabaseError text), db)
    | _ :: _ =>
        (Ok tt,
         mkDb (users db)
              (alter (fun row => foldl set_stock_field row fields) t (stocks db))
              (users_stocks db) (transactions db))
    end.


Global Instance user_field_eq_dec : EqDecision user_field.
Proof. solve_decision. Defined.

(** [keys.join(", ")] and [keys.map((_, index) => `$${index + 1}`).join(", ")]
    inside [INSERT INTO table (...) VALUES (...)]. *)
Definition insert_query (table : string) (keys : list string) : string :=
  "INSERT INTO " +:+ table +:+ " (" +:+ String.concat ", " keys +:+ ") VALUES ("
    +:+ String.concat ", " (imap (fun index _ => "$" +:+ pretty (index + 1)%nat) keys)
    +:+ ")".


(** [INSERT INTO stocks ...]. *)
Definition query_insert_stocks (text : string) (row : Stock) : M unit :=
  fun db =>
    match stocks db !! ticker row with
    | Some _ => (Throw (DatabaseError text), db)
    | None =>
        (Ok tt,
         mkDb (users db) (<[ticker row := row]> (stocks db)) (users_stocks db)
              (transactions db))
    end.

(** [SELECT * FROM users_stocks WHERE uid = $1 AND ticker = $2
     ORDER BY timestamp DESC LIMIT 1]: of the matching rows, one with the
    greatest timestamp (the earliest inserted of them, should several rows
    carry that timestamp). *)
Definition newer (best : option UserStock) (row : UserStock) : option UserStock :=
  match best with
  | None => Some row
  | Some b => if timestamp b <? timestamp row then Some row else Some b
  end.

Definition holding_matches (u t : string) (row : UserStock) : bool :=
  bool_decide (us_uid row = u) && bool_decide (us_ticker row = t).

Definition most_recent (u t : string) (rows : list UserStock) : option UserStock :=
  foldl newer None (filter (fun row => holding_matches u t row = true) rows).

(** ** UserDAO *)

Module UserDAO.

(** [rows[0] || null] of [SELECT * FROM users WHERE uid = $1]. *)
Definition getUser (u : string) : M (option User) :=
  fun db => (Ok (users db !! u), db).

(** The statement text [updateUser] builds. *)
Definition updateUser_query (user : list (user_field * Z)) : string :=
  "UPDATE users SET " +:+ set_clause (map (fun kv => user_field_name kv.1) user)
    +:+ " WHERE uid = $" +:+ pretty (length user + 1)%nat.

(** [updateUser] sends the statement whatever the fields are. *)
Definition updateUser (u : string) (user : list (user_field * Z)) : M unit :=
  query_update_users (updateUser_query user) user u.

(** [getUserPortfolio]: [null] when the join has no row, that is when the
    user does not exist; otherwise the user's columns of the first row.
    The [portfolio] list built next to them is not read by the ledger and
    is left out. *)
Definition getUserPortfolio (u : string) : M (option User) :=
  fun db => (Ok (users db !! u), db).

(** [INSERT INTO users_stocks ...]: one more row, none changed. *)
Definition createStockHolding (holding : UserStock) : M unit :=
  fun db =>
    (Ok tt,
     mkDb (users db) (stocks db) (users_stocks db ++ [holding]) (transactions db)).

Definition getMostRecentStockHolding (u t : string) : M (option UserStock) :=
  fun db => (Ok (most_recent u t (users_stocks db)), db).



End UserDAO.

(** ** StockDAO *)

Module StockDAO.

Definition getStock (t : string) : M (option Stock) :=
  fun db => (Ok (stocks db !! t), db).

Definition updateStock_query (stock : list (stock_field * Z)) : string :=
  "UPDATE stocks SET " +:+ set_clause (map (fun kv => stock_field_name kv.1) stock)
    +:+ " WHERE ticker = $" +:+ pretty (length stock + 1)%nat.

(** [updateStock] checks [Object.keys(stock).length === 0] first. *)
Definition updateStock (t : string) (stock : list (stock_field * Z)) : M unit :=
  if bool_decide (length stock = 0%nat) then
    throw (Error "No fields to update")
  else
    query_update_stocks (updateStock_query stock) stock t.

Definition createStock (stock : Stock) : M unit :=
  query_insert_stocks (insert_query "stocks" ["ticker"; "price"]) stock.

(** [DELETE FROM stocks WHERE ticker = $1]. *)
Definition deleteStock (t : string) : M unit :=
  fun db =>
    (Ok tt,
     mkDb (users db) (delete t (stocks db)) (users_stocks db) (transactions db)).

(** [SELECT * FROM stocks]: every row, in an order the store chooses;
    [rows.length ? rows : []] is [rows]. *)
Definition getAllStocks : M (list Stock) :=
  fun db => (Ok (map_to_list (stocks db)).*2, db).

End StockDAO.

(** ** TransactionDAO *)

Module TransactionDAO.

(** Modelled from the spec: the class behind [daos.transactions] is not
    among the sources.  Its [createTransaction] is the log repository's
    [append]: it inserts one record and has no update or delete. *)
Definition createTransaction (record : Transaction) : M unit :=
  fun db =>
    (Ok tt,
     mkDb (users db) (stocks db) (users_stocks db) (transactions db ++ [record])).

End TransactionDAO.

(** ** TransactionService *)

Module TransactionService.

(** [a || b] on numbers: [b] when [a] is falsy. *)
Definition or_else (a b : Z) : Z := if a =? 0 then b else a.

(** [buyStock(uid, ticker, add, useCredit)]; [now1] and [now2] are the two
    readings of the clock. *)
Definition buyStock (u t : string) (add : Z) (useCredit : bool)
    (now1 now2 : Z) : M StockTransaction :=
  do user <- UserDAO.getUserPortfolio u;
  do stock <- StockDAO.getStock t;
  match user, stock with
  | None, _ => throw (UserNotFoundError u)
  | Some _, None => throw (StockNotFoundError t)
  | Some user, Some stock =>
      let cost := price stock * add in
      let userAvailableCredit := Z.max (credit_limit user - loan_balance user) 0 in
      do useCreditAmount <-
        (if balance user <? cost then
           if useCredit && (balance user + userAvailableCredit >? price stock * add) then
             ret (price stock * add - balance user)
           else
             throw (InsufficientBalanceError u (balance user) cost)
         else ret 0);
      do holding <- UserDAO.getMostRecentStockHolding u t;
      let newQuantity :=
        match holding with
        | Some h => quantity h + add
        | None => add
        end in
      let newBalance := balance user + useCreditAmount - cost in
      let newDebt := loan_balance user + useCreditAmount in
      atomically (
        let newHolding := mkUserStock u t newQuantity now1 in
        UserDAO.createStockHolding newHolding;;
        UserDAO.updateUser u [(f_balance, newBalance); (f_loan_balance, newDebt)];;
        let transactionRecord :=
          mkStockTransaction buy u t (- (cost - useCreditAmount)) useCreditAmount
            add (price stock) cost now2 in
        TransactionDAO.createTransaction (TStock transactionRecord);;
        ret transactionRecord)
  end.

(** [sellStock(uid, ticker, remove)]. *)
Definition sellStock (u t : string) (remove : Z) (now1 now2 : Z)
    : M StockTransaction :=
  do user <- UserDAO.getUserPortfolio u;
  do stock <- StockDAO.getStock t;
  do holding <- UserDAO.getMostRecentStockHolding u t;
  match user, stock with
  | None, _ => throw (UserNotFoundError u)
  | Some _, None => throw (StockNotFoundError t)
  | Some user, Some stock =>
      match holding with
      | None =>
          throw (InsufficientStockQuantityError u 0 remove)
      | Some h =>
          if remove >? quantity h then
            throw (InsufficientStockQuantityError u (or_else (quantity h) 0) remove)
          else
            let newQuantity := quantity h - remove in
            let newBalance := balance user + price stock * remove in
            atomically (
              let newHolding := mkUserStock u t newQuantity now1 in
              UserDAO.createStockHolding newHolding;;
              UserDAO.updateUser u [(f_balance, newBalance)];;
              let transactionRecord :=
                mkStockTransaction sell u t (price stock * remove) 0
                  remove (price stock) (price stock * remove) now2 in
              TransactionDAO.createTransaction (TStock transactionRecord);;
              ret transactionRecord)
      end
  end.

(** [wireToUser(fromUid, destUid, amount)]. *)
Definition wireToUser (fromUid destUid : string) (amount : Z) (now : Z)
    : M WireTransaction :=
  do fromUser <- UserDAO.getUser fromUid;
  match fromUser with
  | None => throw (UserNotFoundError fromUid)
  | Some fromUser =>
      do destUser <- UserDAO.getUser destUid;
      match destUser with
      | None => throw (UserNotFoundError destUid)
      | Some destUser =>
          if balance fromUser <? amount then
            throw (InsufficientBalanceError fromUid (balance fromUser) amount)
          else
            atomically (
              UserDAO.updateUser fromUid [(f_balance, balance fromUser - amount)];;
              UserDAO.updateUser destUid [(f_balance, balance destUser + amount)];;
              let transactionRecord :=
                mkWireTransaction fromUid (- amount) destUid true now in
              TransactionDAO.createTransaction (TWire transactionRecord);;
              ret transactionRecord)
      end
  end.

(** [wireToEntity(fromUid, destIdentifier, amount)]. *)
Definition wireToEntity (fromUid destIdentifier : string) (amount : Z) (now : Z)
    : M WireTransaction :=
  do fromUser <- UserDAO.getUser fromUid;
  match fromUser with
  | None => throw (UserNotFoundError fromUid)
  | Some fromUser =>
      if balance fromUser <? amount then
        throw (InsufficientBalanceError fromUid (balance fromUser) amount)
      else
        atomically (
          UserDAO.updateUser fromUid [(f_balance, balance fromUser - amount)];;
          let transactionRecord :=
            mkWireTransaction fromUid (- amount) destIdentifier false now in
          TransactionDAO.createTransaction (TWire transactionRecord);;
          ret transactionRecord)
  end.

End TransactionService.

Import TransactionService.

(** ** Ledger operations as one type *)

Inductive ledger_op :=
| OpBuy (u t : string) (add : Z) (useCredit : bool) (now1 now2 : Z)
| OpSell (u t : string) (remove : Z) (now1 now2 : Z)
| OpWireToUser (fromUid destUid : string) (amount now : Z)
| OpWireToEntity (fromUid destIdentifier : string) (amount now : Z).

Definition as_stock (m : M StockTransaction) : M Transaction :=
  do r <- m; ret (TStock r).

Definition as_wire (m : M WireTransaction) : M Transaction :=
  do r <- m; ret (TWire r).

Definition run_op (op : ledger_op) : M Transaction :=
  match op with
  | OpBuy u t add useCredit now1 now2 => as_stock (buyStock u t add useCredit now1 now2)
  | OpSell u t remove now1 now2 => as_stock (sellStock u t remove now1 now2)
  | OpWireToUser f d amount now => as_wire (wireToUser f d amount now)
  | OpWireToEntity f d amount now => as_wire (wireToEntity f d amount now)
  end.

(** Cash held by all users together. *)
Definition total_cash (db : Db) : Z :=
  map_fold (fun _ row acc => balance row + acc) 0 (users db).

(** The quantity a user holds before a trade: that of the most recent
    snapshot, 0 when there is none. *)
Definition held (u t : string) (db : Db) : Z :=
  match most_recent u t (users_stocks db) with
  | Some h => quantity h
  | None => 0
  end.

(** The credit a buy draws: the shortfall when the balance does not cover the
    cost ([useCreditAmount] on the path that returns). *)
Definition buy_credit (user : User) (stock : Stock) (add : Z) : Z :=
  if balance user <? price stock * add then price stock * add - balance user else 0.

(** ** The connection pool

    What the services do with the pool is a count of the clients taken with
    [pool.connect()] and a count of the [pc.release()] calls. *)

Record Pooled := mkPooled {
  store : Db;
  acquired : nat;
  released : nat;
}.

Definition P (A : Type) : Type := Pooled -> result A * Pooled.

Definition pret {A} (a : A) : P A := fun s => (Ok a, s).

Definition pthrow {A} (e : error) : P A := fun s => (Throw e, s).

Definition pbind {A B} (m : P A) (k : A -> P B) : P B :=
  fun s =>
    match m s with
    | (Ok a, s') => k a s'
    | (Throw e, s') => (Throw e, s')
    end.

Declare Scope pool_scope.
Delimit Scope pool_scope with pool.
Notation "'do' x <- m ; k" := (pbind m (fun x => k)) : pool_scope.
Notation "m ;; k" := (pbind m (fun _ => k)) : pool_scope.

(** [await pool.connect()] *)
Definition connect : P unit :=
  fun s => (Ok tt, mkPooled (store s) (S (acquired s)) (released s)).

(** [pc.release()] *)
Definition release : P unit :=
  fun s => (Ok tt, mkPooled (store s) (acquired s) (S (released s))).

(** A repository call made on the client. *)
Definition lift {A} (m : M A) : P A :=
  fun s =>
    match m (store s) with
    | (r, db') => (r, mkPooled db' (acquired s) (released s))
    end.

(** [try { BEGIN; body; COMMIT } catch (err) { ROLLBACK; throw err }]: a
    throwing body has its writes to the store discarded. *)
Definition transaction {A} (body : P A) : P A :=
  fun s =>
    match body s with
    | (Ok a, s') => (Ok a, s')
    | (Throw e, s') => (Throw e, mkPooled (store s) (acquired s') (released s'))
    end.

(** [try { body } finally { fin }]: [fin] runs after the body, returned or
    thrown, and the body's outcome stands unless [fin] throws. *)
Definition finally {A} (body : P A) (fin : P unit) : P A :=
  fun s =>
    match body s with
    | (r, s') =>
        match fin s' with
        | (Ok _, s'') => (r, s'')
        | (Throw e, s'') => (Throw e, s'')
        end
    end.

(** ** StockService *)

Module StockService.

Local Open Scope pool_scope.

Definition getStock (t : string) : P (option Stock) :=
  connect;;
  do res <- lift (StockDAO.getStock t);
  release;;
  pret res.

Definition createStock (stock : Stock) : P unit :=
  connect;;
  do res <- lift (StockDAO.createStock stock);
  release;;
  pret res.

Definition updateStock (t : string) (stock : list (stock_field * Z)) : P unit :=
  connect;;
  do res <- lift (StockDAO.updateStock t stock);
  release;;
  pret res.

Definition getAllStocks : P (list Stock) :=
  connect;;
  do res <- lift StockDAO.getAllStocks;
  release;;
  pret res.

End StockService.

(** ** TransactionService, with its use of the pool

    The four operations once more, this time with [pool.connect()], every
    [pc.release()] and the [try]/[catch]/[finally] around the writes. *)

Module WithPool.

Local Open Scope pool_scope.

Definition buyStock (u t : string) (add : Z) (useCredit : bool)
    (now1 now2 : Z) : P StockTransaction :=
  connect;;
  do user <- lift (UserDAO.getUserPortfolio u);
  do stock <- lift (StockDAO.getStock t);
  match user, stock with
  | None, _ => release;; pthrow (UserNotFoundError u)
  | Some _, None => release;; pthrow (StockNotFoundError t)
  | Some user, Some stock =>
      let cost := price stock * add in
      let userAvailableCredit := Z.max (credit_limit user - loan_balance user) 0 in
      do useCreditAmount <-
        (if balance user <? cost then
           if useCredit && (balance user + userAvailableCredit >? price stock * add) then
             pret (price stock * add - balance user)
           else
             (release;; pthrow (InsufficientBalanceError u (balance user) cost))
         else pret 0);
      do holding <- lift (UserDAO.getMostRecentStockHolding u t);
      let newQuantity :=
        match holding with
        | Some h => quantity h + add
        | None => add
        end in
      let newBalance := balance user + useCreditAmount - cost in
      let newDebt := loan_balance user + useCreditAmount in
      finally
        (transaction (
           let newHolding := mkUserStock u t newQuantity now1 in
           lift (UserDAO.createStockHolding newHolding);;
           lift (UserDAO.updateUser u
                   [(f_balance, newBalance); (f_loan_balance, newDebt)]);;
           let transactionRecord :=
             mkStockTransaction buy u t (- (cost - useCreditAmount)) useCreditAmount
               add (price stock) cost now2 in
           lift (TransactionDAO.createTransaction (TStock transactionRecord));;
           pret transactionRecord))
        release
  end.

Definition sellStock (u t : string) (remove : Z) (now1 now2 : Z)
    : P StockTransaction :=
  connect;;
  do user <- lift (UserDAO.getUserPortfolio u);
  do stock <- lift (StockDAO.getStock t);
  do holding <- lift (UserDAO.getMostRecentStockHolding u t);
  match user, stock with
  | None, _ => release;; pthrow (UserNotFoundError u)
  | Some _, None => release;; pthrow (StockNotFoundError t)
  | Some user, Some stock =>
      match holding with
      | None =>
          release;; pthrow (InsufficientStockQuantityError u 0 remove)
      | Some h =>
          if remove >? quantity h then
            release;;
            pthrow (InsufficientStockQuantityError u
                      (TransactionService.or_else (quantity h) 0) remove)
          else
            let newQuantity := quantity h - remove in
            let newBalance := balance user + price stock * remove in
            finally
              (transaction (
                 let newHolding := mkUserStock u t newQuantity now1 in
                 lift (UserDAO.createStockHolding newHolding);;
                 lift (UserDAO.updateUser u [(f_balance, newBalance)]);;
                 let transactionRecord :=
                   mkStockTransaction sell u t (price stock * remove) 0
                     remove (price stock) (price stock * remove) now2 in
                 lift (TransactionDAO.createTransaction (TStock transactionRecord));;
                 pret transactionRecord))
              release
      end
  end.

Definition wireToUser (fromUid destUid : string) (amount : Z) (now : Z)
    : P WireTransaction :=
  connect;;
  do fromUser <- lift (UserDAO.getUser fromUid);
  match fromUser with
  | None => release;; pthrow (UserNotFoundError fromUid)
  | Some fromUser =>
      do destUser <- lift (UserDAO.getUser destUid);
      match destUser with
      | None => release;; pthrow (UserNotFoundError destUid)
      | Some destUser =>
          if balance fromUser <? amount then
            release;;
            pthrow (InsufficientBalanceError fromUid (balance fromUser) amount)
          else
            finally
              (transaction (
                 lift (UserDAO.updateUser fromUid
                         [(f_balance, balance fromUser - amount)]);;
                 lift (UserDAO.updateUser destUid
                         [(f_balance, balance destUser + amount)]);;
                 let transactionRecord :=
                   mkWireTransaction fromUid (- amount) destUid true now in
                 lift (TransactionDAO.createTransaction (TWire transactionRecord));;
                 pret transactionRecord))
              release
      end
  end.

Definition wireToEntity (fromUid destIdentifier : string) (amount : Z) (now : Z)
    : P WireTransaction :=
  connect;;
  do fromUser <- lift (UserDAO.getUser fromUid);
  match fromUser with
  | None => release;; pthrow (UserNotFoundError fromUid)
  | Some fromUser =>
      if balance fromUser <? amount then
        release;;
        pthrow (InsufficientBalanceError fromUid (balance fromUser) amount)
      else
        finally
          (transaction (
             lift (UserDAO.updateUser fromUid
                     [(f_balance, balance fromUser - amount)]);;
             let transactionRecord :=
               mkWireTransaction fromUid (- amount) destIdentifier false now in
             lift (TransactionDAO.createTransaction (TWire transactionRecord));;
             pret transactionRecord))
          release
  end.

(** The four operations as one, as [run_op] has them. *)
Definition run (op : ledger_op) : P Transaction :=
  match op with
  | OpBuy u t add useCredit now1 now2 =>
      do r <- buyStock u t add useCredit now1 now2; pret (TStock r)
  | OpSell u t remove now1 now2 =>
      do r <- sellStock u t remove now1 now2; pret (TStock r)
  | OpWireToUser f d amount now =>
      do r <- wireToUser f d amount now; pret (TWire r)
  | OpWireToEntity f d amount now =>
      do r <- wireToEntity f d amount now; pret (TWire r)
  end.

End WithPool.

(** ** utils/helpers *)

Module Helpers.

Local Open Scope pool_scope.

(** [array.slice(0, n)]: a negative [n] counts from the end. *)
Definition slice_to {A} (n : Z) (array : list A) : list A :=
  let len := Z.of_nat (length array) in
  let stop := if n <? 0 then Z.max (len + n) 0 else Z.min n len in
  take (Z.to_nat stop) array.

(** [chooseRandomStocks(n)].  [shuffle] is what
    [allStocks.sort(() => 0.5 - Math.random())] leaves in the array. *)
Definition chooseRandomStocks (shuffle : list Stock -> list Stock) (n : Z)
    : P (list Stock) :=
  do allStocks <- StockService.getAllStocks;
  let n := if n >? Z.of_nat (length allStocks) then Z.of_nat (length allStocks) else n in
  let shuffled := shuffle allStocks in
  pret (slice_to n shuffled).

(** [stockPriceRandomWalk(ticker, volatility)].  [floored] is the number
    [Math.floor(stock.price + change_amount)] comes to for the price read,
    [volatility] and the random draw; [minimumStockPrice] is
    [config.game.minimumStockPrice]. *)
Definition stockPriceRandomWalk (minimumStockPrice : Z) (floored : Z -> Z)
    (t : string) : P unit :=
  do stock <- StockService.getStock t;
  match stock with
  | None => pthrow (StockNotFoundError t)
  | Some stock =>
      let new_price := floored (price stock) in
      let new_price :=
        if new_price <? minimumStockPrice then minimumStockPrice else new_price in
      StockService.updateStock t [(f_price, new_price)]
  end.

End Helpers.

(** ** The embed navigator of utils/helpers *)

Module EmbedNavigator.

(** [embeds[i] || new EmbedBuilder().setDescription('No embeds to display.')] *)
Inductive Shown (E : Type) :=
| Embed (e : E)
| NoEmbeds.
Arguments Embed {E} e.
Arguments NoEmbeds {E}.

(** A message as sent or updated: its embed, the two buttons' [disabled]
    flags and the files attached. *)
Record Page (E F : Type) := mkPage {
  page_embed : Shown E;
  previous_disabled : bool;
  next_disabled : bool;
  page_files : list F;
}.
Arguments mkPage {E F} _ _ _ _.
Arguments page_embed {E F} _.
Arguments previous_disabled {E F} _.
Arguments next_disabled {E F} _.
Arguments page_files {E F} _.

(** What a collected click is answered with. *)
Inductive Answer (E F : Type) :=
| Replied (content : string)
| Updated (page : Page E F).
Arguments Replied {E F} content.
Arguments Updated {E F} page.

(** A button interaction: who clicked and the button's [customId]. *)
Record Click := mkClick {
  clicker : string;
  customId : string;
}.

Definition embed_at {E} (embeds : list E) (index : Z) : Shown E :=
  match (if index <? 0 then None else embeds !! Z.to_nat index) with
  | Some e => Embed e
  | None => NoEmbeds
  end.

(** The first message: nothing at all without embeds. *)
Definition first_page {E F} (embeds : list E) : option (Page E F) :=
  if (length embeds =? 0)%nat then None
  else Some (mkPage (embed_at embeds 0) true (length embeds <=? 1)%nat []).

(** The ['collect'] handler: the new [currentIndex] and the answer. *)
Definition collect {E F} (owner : string) (embeds : list E)
    (files : gmap Z (list F)) (currentIndex : Z) (click : Click)
    : Z * Answer E F :=
  if negb (String.eqb (clicker click) owner) then
    (currentIndex, Replied "You cannot control this navigation.")
  else
    let len := Z.of_nat (length embeds) in
    let currentIndex :=
      if String.eqb (customId click) "previous" then
        if currentIndex >? 0 then currentIndex - 1 else currentIndex
      else if String.eqb (customId click) "next" then
        if currentIndex <? len - 1 then currentIndex + 1 else currentIndex
      else currentIndex in
    (currentIndex,
     Updated (mkPage (embed_at embeds currentIndex)
                (currentIndex =? 0) (currentIndex =? len - 1)
                (default [] (files !! currentIndex)))).

(** The clicks collected one after the other, from [currentIndex = 0]. *)
Definition collect_all {E F} (owner : string) (embeds : list E)
    (files : gmap Z (list F)) (clicks : list Click) : Z * list (Answer E F) :=
  foldl (fun state click =>
           let '(index, answer) := collect owner embeds files state.1 click in
           (index, state.2 ++ [answer]))
        (0, []) clicks.

End EmbedNavigator.

(** ** The item action loader *)

Module ItemActions.

(** [ItemAction]; only its [name] is read here. *)
Record ItemAction := mkItemAction {
  name : string;
}.

(** What a file of item actions exports. *)
Record ItemFile := mkItemFile {
  itemIds : list string;
  action : ItemAction;
}.

(** [s.endsWith(suffix)] *)
Definition endsWith (s suffix : string) : bool :=
  let n := String.length s in
  let k := String.length suffix in
  (k <=? n)%nat && String.eqb (String.substring (n - k) k s) suffix.

(** The keys [for (let id in array)] visits: the indices of the array, as
    strings, in order. *)
Definition for_in_keys {A} (array : list A) : list string :=
  imap (fun index _ => pretty index) array.

(** [actions.get(id) || []], [push], [actions.set]. *)
Definition register (a : ItemAction) (actions : gmap string (list ItemAction))
    (id : string) : gmap string (list ItemAction) :=
  let actionsArray := default [] (actions !! id) in
  <[id := actionsArray ++ [a]]> actions.

(** The innermost loop, for one file. *)
Definition load_file (actions : gmap string (list ItemAction)) (pair : ItemFile)
    : gmap string (list ItemAction) :=
  foldl (register (action pair)) actions (for_in_keys (itemIds pair)).

(** The file system as the loader sees it: [fs.readdirSync] and [require],
    each with [None] for a call that throws. *)
Record FileSystem := mkFileSystem {
  readdirSync : string -> option (list string);
  require : string -> option ItemFile;
}.

(** The loop over the files of one folder. *)
Definition load_folder (fs : FileSystem) (folder : string)
    (actions : gmap string (list ItemAction)) (itemsFiles : list string)
    : option (gmap string (list ItemAction)) :=
  foldl (fun acc file =>
           actions ← acc;
           pair ← require fs ("./commands/" +:+ folder +:+ "/" +:+ file);
           Some (load_file actions pair))
        (Some actions) itemsFiles.

(** The module body: the map [actions] it exports, or [None] when a call
    threw. *)
Definition load (fs : FileSystem) (foldersPath : string)
    : option (gmap string (list ItemAction)) :=
  itemsFolders ← readdirSync fs foldersPath;
  foldl (fun acc folder =>
           actions ← acc;
           if endsWith folder ".ts" then Some actions
           else
             files ← readdirSync fs (foldersPath +:+ "/" +:+ folder);
             load_folder fs folder actions
               (filter (fun file => endsWith file ".ts" = true) files))
        (Some ∅) itemsFolders.

End ItemActions.

(** The users a ledger operation names: the trader, or the two ends of a
    wire (an outside party is not a user). *)
Definition op_users (op : ledger_op) : list string :=
  match op with
  | OpBuy u _ _ _ _ _ => [u]
  | OpSell u _ _ _ _ => [u]
  | OpWireToUser f d _ _ => [f; d]
  | OpWireToEntity f _ _ _ => [f]
  end.

(** ** Sample stores *)

(** One user with 1000 in cash and no credit line, one stock at 100. *)
Definition db_cash : Db :=
  mkDb {[ "A" := mkUser "A" 1000 0 0 ]} {[ "XYZ" := mkStock "XYZ" 100 ]} [] [].

(** One user with 100 in cash and a credit line of 500, one stock at 100. *)
Definition db_credit : Db :=
  mkDb {[ "A" := mkUser "A" 100 500 0 ]} {[ "XYZ" := mkStock "XYZ" 100 ]} [] [].

(** [db_cash] after the user bought five shares. *)
Definition db_five : Db :=
  mkDb {[ "A" := mkUser "A" 500 0 0 ]} {[ "XYZ" := mkStock "XYZ" 100 ]}
    [mkUserStock "A" "XYZ" 5 1] [].

(** Two users. *)
Definition db_pair : Db :=
  mkDb {[ "A" := mkUser "A" 100 500 0; "B" := mkUser "B" 40 0 0 ]}
    {[ "XYZ" := mkStock "XYZ" 100 ]} [] [].

(** A folder of item files next to a stray [.ts] file. *)
Definition fs_sample : ItemActions.FileSystem :=
  ItemActions.mkFileSystem
    (fun path =>
       if String.eqb path "items" then Some ["weapons"; "index.ts"]
       else if String.eqb path "items/weapons" then Some ["sword.ts"; "notes.md"]
       else None)
    (fun path =>
       if String.eqb path "./commands/weapons/sword.ts" then
         Some (ItemActions.mkItemFile ["sword"; "dagger"]
                 (ItemActions.mkItemAction "slash"))
       else None).

Ltac run := unfold bind, ret, throw, atomically; simpl.

(** * Properties *)

(** ** The store *)

Section Store.

Implicit Types (m : gmap string User) (db : Db).

Lemma alter_user_lookup m u row (f : User -> User) :
  m !! u = Some row -> alter f u m !! u = Some (f row).
Proof. intros Hrow. by rewrite lookup_alter_eq, Hrow. Qed.

Lemma alter_user_other m u v (f : User -> User) :
  u ≠ v -> alter f u m !! v = m !! v.
Proof. apply lookup_alter_ne. Qed.

Lemma cash_fold_comm (j1 j2 : string) (z1 z2 : User) (y : Z) :
  balance z1 + (balance z2 + y) = balance z2 + (balance z1 + y).
Proof. lia. Qed.

(** Rewriting one row moves the total by the difference of the balances. *)
Lemma cash_fold_alter m u row (f : User -> User) :
  m !! u = Some row ->
  map_fold (fun _ r acc => balance r + acc) 0 (alter f u m)
  = map_fold (fun _ r acc => balance r + acc) 0 m - balance row + balance (f row).
Proof.
  intros Hrow.
  rewrite alter_alt, Hrow.
  rewrite <- (insert_delete_eq m u (f row)).
  rewrite map_fold_insert_L.
  - rewrite (map_fold_delete_L _ 0 u row m); [lia | | done].
    intros. apply cash_fold_comm; assumption.
  - intros. apply cash_fold_comm; assumption.
  - apply lookup_delete_eq.
Qed.

End Store.

(** ** What each operation does when it returns

    One inversion lemma per operation: a returned record fixes the rows that
    were read, the branch that was taken and the store that results. *)

Lemma buyStock_returns u t add useCredit now1 now2 db r db' :
  buyStock u t add useCredit now1 now2 db = (Ok r, db') ->
  exists user stock,
    users db !! u = Some user /\ stocks db !! t = Some stock /\
    (balance user < price stock * add ->
       useCredit = true /\
       balance user + Z.max (credit_limit user - loan_balance user) 0
         > price stock * add) /\
    let cost := price stock * add in
    let credit := buy_credit user stock add in
    r = mkStockTransaction buy u t (- (cost - credit)) credit add (price stock)
          cost now2 /\
    db' = mkDb
            (alter (fun row =>
                      mkUser (uid row) (balance user + credit - cost)
                        (credit_limit row) (loan_balance user + credit))
               u (users db))
            (stocks db)
            (users_stocks db ++ [mkUserStock u t (held u t db + add) now1])
            (transactions db ++ [TStock r]).
Proof.
  unfold buyStock, buy_credit, held. run.
  destruct (users db !! u) as [user|] eqn:Huser; [|discriminate].
  destruct (stocks db !! t) as [stock|] eqn:Hstock; [|discriminate].
  simpl. intros Hrun. exists user, stock. split; [done|]. split; [done|].
  destruct (Z.ltb_spec (balance user) (price stock * add)) as [Hlt|Hge].
  - destruct useCredit; simpl in Hrun; [|discriminate].
    rewrite Z.gtb_ltb in Hrun.
    destruct (Z.ltb_spec (price stock * add)
                (balance user + Z.max (credit_limit user - loan_balance user) 0))
      as [Hcr|Hcr]; simpl in Hrun; [|discriminate].
    split; [intros _; split; [done | lia]|].
    destruct (most_recent u t (users_stocks db)); simpl in Hrun;
      inversion Hrun; subst; auto.
  - split; [intros Hlt; lia|].
    simpl in Hrun.
    destruct (most_recent u t (users_stocks db)); simpl in Hrun;
      inversion Hrun; subst; auto.
Qed.

Lemma sellStock_returns u t remove now1 now2 db r db' :
  sellStock u t remove now1 now2 db = (Ok r, db') ->
  exists user stock h,
    users db !! u = Some user /\ stocks db !! t = Some stock /\
    most_recent u t (users_stocks db) = Some h /\
    remove <= quantity h /\
    let proceeds := price stock * remove in
    r = mkStockTransaction sell u t proceeds 0 remove (price stock) proceeds now2 /\
    db' = mkDb
            (alter (fun row =>
                      mkUser (uid row) (balance user + proceeds)
                        (credit_limit row) (loan_balance row))
               u (users db))
            (stocks db)
            (users_stocks db ++ [mkUserStock u t (quantity h - remove) now1])
            (transactions db ++ [TStock r]).
Proof.
  unfold sellStock. run.
  destruct (users db !! u) as [user|] eqn:Huser; [|discriminate].
  destruct (stocks db !! t) as [stock|] eqn:Hstock; [|discriminate].
  destruct (most_recent u t (users_stocks db)) as [h|] eqn:Hh; [|discriminate].
  rewrite Z.gtb_ltb.
  destruct (Z.ltb_spec (quantity h) remove) as [Hlt|Hge]; [discriminate|].
  simpl. intros Hrun. exists user, stock, h.
  inversion Hrun; subst. auto 10.
Qed.

Lemma wireToUser_returns f d amount now db r db' :
  wireToUser f d amount now db = (Ok r, db') ->
  exists fromUser destUser,
    users db !! f = Some fromUser /\ users db !! d = Some destUser /\
    amount <= balance fromUser /\
    r = mkWireTransaction f (- amount) d true now /\
    db' = mkDb
            (alter (fun row =>
                      mkUser (uid row) (balance destUser + amount)
                        (credit_limit row) (loan_balance row))
               d
               (alter (fun row =>
                         mkUser (uid row) (balance fromUser - amount)
                           (credit_limit row) (loan_balance row))
                  f (users db)))
            (stocks db) (users_stocks db) (transactions db ++ [TWire r]).
Proof.
  unfold wireToUser. run.
  destruct (users db !! f) as [fromUser|] eqn:Hfrom; [|discriminate].
  destruct (users db !! d) as [destUser|] eqn:Hdest; [|discriminate].
  destruct (Z.ltb_spec (balance fromUser) amount) as [Hlt|Hge]; [discriminate|].
  simpl. intros Hrun. exists fromUser, destUser.
  inversion Hrun; subst. auto 10.
Qed.

Lemma wireToEntity_returns f d amount now db r db' :
  wireToEntity f d amount now db = (Ok r, db') ->
  exists fromUser,
    users db !! f = Some fromUser /\
    amount <= balance fromUser /\
    r = mkWireTransaction f (- amount) d false now /\
    db' = mkDb
            (alter (fun row =>
                      mkUser (uid row) (balance fromUser - amount)
                        (credit_limit row) (loan_balance row))
               f (users db))
            (stocks db) (users_stocks db) (transactions db ++ [TWire r]).
Proof.
  unfold wireToEntity. run.
  destruct (users db !! f) as [fromUser|] eqn:Hfrom; [|discriminate].
  destruct (Z.ltb_spec (balance fromUser) amount) as [Hlt|Hge]; [discriminate|].
  simpl. intros Hrun. exists fromUser.
  inversion Hrun; subst. auto 10.
Qed.

(** ** When each operation returns *)

Lemma buyStock_runs u t add useCredit now1 now2 db user stock :
  users db !! u = Some user -> stocks db !! t = Some stock ->
  (balance user < price stock * add ->
     useCredit = true /\
     balance user + Z.max (credit_limit user - loan_balance user) 0
       > price stock * add) ->
  exists r db', buyStock u t add useCredit now1 now2 db = (Ok r, db').
Proof.
  intros Huser Hstock Hfunds. unfold buyStock. run.
  rewrite Huser, Hstock. simpl.
  destruct (Z.ltb_spec (balance user) (price stock * add)) as [Hlt|Hge].
  - destruct (Hfunds Hlt) as [-> Hcr]. simpl.
    rewrite Z.gtb_ltb.
    destruct (Z.ltb_spec (price stock * add)
                (balance user + Z.max (credit_limit user - loan_balance user) 0));
      [|lia].
    simpl. eauto.
  - simpl. eauto.
Qed.

Lemma sellStock_runs u t remove now1 now2 db user stock h :
  users db !! u = Some user -> stocks db !! t = Some stock ->
  most_recent u t (users_stocks db) = Some h -> remove <= quantity h ->
  exists r db', sellStock u t remove now1 now2 db = (Ok r, db').
Proof.
  intros Huser Hstock Hh Hle. unfold sellStock. run.
  rewrite Huser, Hstock, Hh, Z.gtb_ltb.
  destruct (Z.ltb_spec (quantity h) remove); [lia|]. simpl. eauto.
Qed.

Lemma wireToUser_runs f d amount now db fromUser destUser :
  users db !! f = Some fromUser -> users db !! d = Some destUser ->
  amount <= balance fromUser ->
  exists r db', wireToUser f d amount now db = (Ok r, db').
Proof.
  intros Hfrom Hdest Hle. unfold wireToUser. run.
  rewrite Hfrom, Hdest.
  destruct (Z.ltb_spec (balance fromUser) amount); [lia|]. simpl. eauto.
Qed.

Lemma wireToEntity_runs f d amount now db fromUser :
  users db !! f = Some fromUser -> amount <= balance fromUser ->
  exists r db', wireToEntity f d amount now db = (Ok r, db').
Proof.
  intros Hfrom Hle. unfold wireToEntity. run.
  rewrite Hfrom.
  destruct (Z.ltb_spec (balance fromUser) amount); [lia|]. simpl. eauto.
Qed.

(** ** Buying on credit *)

(** C1. A buy made with [useCredit] by a user whose balance is below the cost
    while balance plus available credit is above it returns; it draws
    [creditAmount = cost - balance], leaves the user with a balance of
    [balance + creditAmount - cost], which is 0, and a loan balance raised
    by [creditAmount], and its record carries
    [balance_change = -(cost - creditAmount)], [credit_change = creditAmount]
    and [total_price = cost]. *)
Theorem C1_buy_draws_the_shortfall u t add now1 now2 db user stock :
  users db !! u = Some user -> stocks db !! t = Some stock ->
  balance user < price stock * add ->
  balance user + Z.max (credit_limit user - loan_balance user) 0
    > price stock * add ->
  let cost := price stock * add in
  let creditAmount := cost - balance user in
  exists r db' user',
    buyStock u t add true now1 now2 db = (Ok r, db') /\
    users db' !! u = Some user' /\
    balance user' = balance user + creditAmount - cost /\
    balance user' = 0 /\
    loan_balance user' = loan_balance user + creditAmount /\
    balance_change r = - (cost - creditAmount) /\
    credit_change r = creditAmount /\
    total_price r = cost.
Proof.
  intros Huser Hstock Hlt Hcr cost creditAmount.
  destruct (buyStock_runs u t add true now1 now2 db user stock Huser Hstock)
    as (r & db' & Hrun); [auto|].
  exists r, db'.
  destruct (buyStock_returns _ _ _ _ _ _ _ _ _ Hrun)
    as (user1 & stock1 & Huser1 & Hstock1 & _ & Hr & Hdb).
  assert (user1 = user) as -> by congruence.
  assert (stock1 = stock) as -> by congruence.
  unfold buy_credit in Hr, Hdb.
  destruct (Z.ltb_spec (balance user) (price stock * add)); [|lia].
  pose proof (alter_user_lookup (users db) u user
                (fun row => mkUser (uid row)
                   (balance user + (price stock * add - balance user)
                      - price stock * add)
                   (credit_limit row)
                   (loan_balance user + (price stock * add - balance user)))
                Huser) as Hafter.
  eexists. split; [exact Hrun|]. split.
  - rewrite Hdb. simpl. exact Hafter.
  - subst r cost creditAmount. simpl. repeat split; lia.
Qed.

Lemma C1_buy_draws_the_shortfall_witness :
  exists r db' user',
    buyStock "A" "XYZ" 2 true 1 2 db_credit = (Ok r, db') /\
    users db' !! "A" = Some user' /\
    balance user' = 100 + (200 - 100) - 200 /\
    balance user' = 0 /\
    loan_balance user' = 0 + (200 - 100) /\
    balance_change r = - (200 - (200 - 100)) /\
    credit_change r = 200 - 100 /\
    total_price r = 200.
Proof.
  apply (C1_buy_draws_the_shortfall "A" "XYZ" 2 1 2 db_credit
           (mkUser "A" 100 500 0) (mkStock "XYZ" 100));
    vm_compute; reflexivity.
Defined.

(** ** Balances move by what the record says *)

(** C2. After a buy that returns, the user's balance is the old balance plus
    the record's [balance_change] and the loan balance is the old one plus
    the record's [credit_change]; after a sell that returns, the balance is
    the old balance plus [balance_change], [credit_change] is 0 and the loan
    balance is the old one. *)
Theorem C2_balance_follows_record :
  (forall u t add useCredit now1 now2 db r db',
     buyStock u t add useCredit now1 now2 db = (Ok r, db') ->
     exists user user',
       users db !! u = Some user /\ users db' !! u = Some user' /\
       balance user' = balance user + balance_change r /\
       loan_balance user' = loan_balance user + credit_change r) /\
  (forall u t remove now1 now2 db r db',
     sellStock u t remove now1 now2 db = (Ok r, db') ->
     exists user user',
       users db !! u = Some user /\ users db' !! u = Some user' /\
       balance user' = balance user + balance_change r /\
       credit_change r = 0 /\
       loan_balance user' = loan_balance user).
Proof.
  split.
  - intros u t add useCredit now1 now2 db r db' Hrun.
    destruct (buyStock_returns _ _ _ _ _ _ _ _ _ Hrun)
      as (user & stock & Huser & _ & _ & Hr & Hdb).
    subst db'. simpl.
    erewrite alter_user_lookup by exact Huser.
    exists user. eexists. split; [exact Huser|]. split; [reflexivity|].
    rewrite Hr. simpl. split; lia.
  - intros u t remove now1 now2 db r db' Hrun.
    destruct (sellStock_returns _ _ _ _ _ _ _ _ Hrun)
      as (user & stock & h & Huser & _ & _ & _ & Hr & Hdb).
    subst db'. simpl.
    erewrite alter_user_lookup by exact Huser.
    exists user. eexists. split; [exact Huser|]. split; [reflexivity|].
    rewrite Hr. simpl. repeat split; lia.
Qed.

Lemma C2_balance_follows_record_witness :
  (exists user user',
     users db_cash !! "A" = Some user /\
     users (buyStock "A" "XYZ" 5 false 1 2 db_cash).2 !! "A" = Some user' /\
     balance user' = balance user + (-500) /\
     loan_balance user' = loan_balance user + 0) /\
  (exists user user',
     users db_five !! "A" = Some user /\
     users (sellStock "A" "XYZ" 3 3 4 db_five).2 !! "A" = Some user' /\
     balance user' = balance user + 300 /\
     0 = 0 /\
     loan_balance user' = loan_balance user).
Proof.
  split.
  - apply (proj1 C2_balance_follows_record "A" "XYZ" 5 false 1 2 db_cash
             (mkStockTransaction buy "A" "XYZ" (-500) 0 5 100 500 2)).
    vm_compute. reflexivity.
  - apply (proj2 C2_balance_follows_record "A" "XYZ" 3 3 4 db_five
             (mkStockTransaction sell "A" "XYZ" 300 0 3 100 300 4)).
    vm_compute. reflexivity.
Defined.

(** ** The credit limit *)

Lemma run_op_returns op db r db' :
  run_op op db = (Ok r, db') ->
  match op with
  | OpBuy u t add useCredit now1 now2 =>
      exists rec, r = TStock rec /\
        buyStock u t add useCredit now1 now2 db = (Ok rec, db')
  | OpSell u t remove now1 now2 =>
      exists rec, r = TStock rec /\ sellStock u t remove now1 now2 db = (Ok rec, db')
  | OpWireToUser f d amount now =>
      exists rec, r = TWire rec /\ wireToUser f d amount now db = (Ok rec, db')
  | OpWireToEntity f d amount now =>
      exists rec, r = TWire rec /\ wireToEntity f d amount now db = (Ok rec, db')
  end.
Proof.
  destruct op; unfold run_op, as_stock, as_wire, bind, ret;
    match goal with
    | |- context [match ?m db with _ => _ end] =>
        destruct (m db) as [[rec|e] db1]
    end;
    intros Hrun; inversion Hrun; subst; eauto.
Qed.

(** A write that keeps [credit_limit] and does not raise [loan_balance] above
    it keeps every row within its limit. *)
Lemma alter_keeps_limit (m : gmap string User) u (f : User -> User) v row :
  (forall old, m !! u = Some old -> loan_balance old <= credit_limit old ->
               loan_balance (f old) <= credit_limit (f old)) ->
  m !! v = Some row -> loan_balance row <= credit_limit row ->
  exists row', alter f u m !! v = Some row' /\
               loan_balance row' <= credit_limit row'.
Proof.
  intros Hf Hrow Hle.
  destruct (decide (u = v)) as [->|Hne].
  - exists (f row). split; [by apply alter_user_lookup | by apply Hf].
  - exists row. split; [by rewrite alter_user_other | done].
Qed.

(** C3. A user whose loan balance is within the credit limit is still within
    it after any ledger operation that returns; and a buy that draws on
    credit draws a positive amount strictly below the available credit
    [max(credit_limit - loan_balance, 0)]. *)
Theorem C3_loan_stays_within_limit :
  (forall op db r db' v row,
     users db !! v = Some row -> loan_balance row <= credit_limit row ->
     run_op op db = (Ok r, db') ->
     exists row', users db' !! v = Some row' /\
                  loan_balance row' <= credit_limit row') /\
  (forall u t add useCredit now1 now2 db r db' user,
     buyStock u t add useCredit now1 now2 db = (Ok r, db') ->
     users db !! u = Some user ->
     credit_change r <> 0 ->
     0 < credit_change r
       < Z.max (credit_limit user - loan_balance user) 0).
Proof.
  split.
  - intros op db r db' v row Hrow Hle Hrun.
    apply run_op_returns in Hrun.
    destruct op as [u t add useCredit now1 now2 | u t remove now1 now2
                   | f d amount now | f d amount now];
      destruct Hrun as (rec & _ & Hrun).
    + destruct (buyStock_returns _ _ _ _ _ _ _ _ _ Hrun)
        as (user & stock & Huser & _ & Hfunds & _ & ->).
      simpl. eapply alter_keeps_limit; [|exact Hrow|exact Hle].
      intros old Hold Hold_le. simpl.
      assert (old = user) as -> by congruence.
      unfold buy_credit.
      destruct (Z.ltb_spec (balance user) (price stock * add)) as [Hlt|Hge];
        [destruct (Hfunds Hlt) as [_ Hcr]|]; lia.
    + destruct (sellStock_returns _ _ _ _ _ _ _ _ Hrun)
        as (user & stock & h & _ & _ & _ & _ & _ & ->).
      simpl. eapply alter_keeps_limit; [|exact Hrow|exact Hle]. intros; simpl; done.
    + destruct (wireToUser_returns _ _ _ _ _ _ _ Hrun)
        as (fromUser & destUser & _ & _ & _ & _ & ->).
      simpl.
      destruct (alter_keeps_limit (users db) f
                  (fun row0 => mkUser (uid row0) (balance fromUser - amount)
                                 (credit_limit row0) (loan_balance row0))
                  v row) as (mid & Hmid & Hmid_le); [intros; simpl; done|done|done|].
      eapply alter_keeps_limit; [|exact Hmid|exact Hmid_le].
      intros; simpl; done.
    + destruct (wireToEntity_returns _ _ _ _ _ _ _ Hrun)
        as (fromUser & _ & _ & _ & ->).
      simpl. eapply alter_keeps_limit; [|exact Hrow|exact Hle]. intros; simpl; done.
  - intros u t add useCredit now1 now2 db r db' user Hrun Huser Hdrawn.
    destruct (buyStock_returns _ _ _ _ _ _ _ _ _ Hrun)
      as (user1 & stock & Huser1 & _ & Hfunds & Hr & _).
    assert (user1 = user) as -> by congruence.
    rewrite Hr in Hdrawn |- *. simpl in *. unfold buy_credit in *.
    destruct (Z.ltb_spec (balance user) (price stock * add)) as [Hlt|Hge];
      [destruct (Hfunds Hlt) as [_ Hcr]; lia | congruence].
Qed.

Lemma C3_loan_stays_within_limit_witness :
  (exists row',
     users (run_op (OpBuy "A" "XYZ" 2 true 1 2) db_credit).2 !! "A" = Some row' /\
     loan_balance row' <= credit_limit row') /\
  0 < 100 < Z.max (500 - 0) 0.
Proof.
  split.
  - apply (proj1 C3_loan_stays_within_limit (OpBuy "A" "XYZ" 2 true 1 2) db_credit
             (TStock (mkStockTransaction buy "A" "XYZ" (-100) 100 2 100 200 2))
             (run_op (OpBuy "A" "XYZ" 2 true 1 2) db_credit).2
             "A" (mkUser "A" 100 500 0)).
    + vm_compute. reflexivity.
    + vm_compute. discriminate.
    + vm_compute. reflexivity.
  - apply (proj2 C3_loan_stays_within_limit "A" "XYZ" 2 true 1 2 db_credit
             (mkStockTransaction buy "A" "XYZ" (-100) 100 2 100 200 2)
             (buyStock "A" "XYZ" 2 true 1 2 db_credit).2
             (mkUser "A" 100 500 0)).
    + vm_compute. reflexivity.
    + vm_compute. reflexivity.
    + vm_compute. discriminate.
Defined.

(** ** Wires between users *)

(** Between two different users a wire moves [amount] from one balance to
    the other. *)
Lemma wireToUser_between_different_users f d amount now db r db' :
  f ≠ d ->
  wireToUser f d amount now db = (Ok r, db') ->
  exists fromUser destUser fromUser' destUser',
    users db !! f = Some fromUser /\ users db !! d = Some destUser /\
    users db' !! f = Some fromUser' /\ users db' !! d = Some destUser' /\
    balance fromUser' = balance fromUser - amount /\
    balance destUser' = balance destUser + amount /\
    (balance fromUser' - balance fromUser)
      + (balance destUser' - balance destUser) = 0.
Proof.
  intros Hne Hrun.
  destruct (wireToUser_returns _ _ _ _ _ _ _ Hrun)
    as (fromUser & destUser & Hfrom & Hdest & _ & _ & ->).
  exists fromUser, destUser. simpl.
  rewrite (alter_user_other _ d f) by congruence.
  erewrite (alter_user_lookup _ f) by exact Hfrom.
  erewrite (alter_user_lookup _ d)
    by (rewrite alter_user_other by done; exact Hdest).
  do 2 eexists. repeat (split; [reflexivity || eassumption|]).
  simpl. lia.
Qed.

(** C4. [wireToUser] evaluated on a wire of 50 from user A, who has 100, to
    the same user A: the call returns, and the balance, debited and credited
    from the two reads taken before either write, ends at 150.  The changes
    of the source's and the destination's balance add up to 100, not to 0. *)
Theorem C4_wire_to_self_is_not_conserving :
  exists r db' before after,
    wireToUser "A" "A" 50 1 db_credit = (Ok r, db') /\
    users db_credit !! "A" = Some before /\
    users db' !! "A" = Some after /\
    balance before = 100 /\
    balance after = 150 /\
    (balance after - balance before) + (balance after - balance before) <> 0.
Proof.
  do 4 eexists.
  split; [vm_compute; reflexivity|].
  split; [vm_compute; reflexivity|].
  split; [vm_compute; reflexivity|].
  simpl. repeat split; lia.
Qed.

(** ** Rejected trades write nothing *)

Lemma or_else_0 (a : Z) : or_else a 0 = a.
Proof. unfold or_else. destruct (Z.eqb_spec a 0); congruence. Qed.

(** C5. A sell by an existing user of an existing stock, with no holding or
    with a quantity above that of the latest holding, throws
    [InsufficientStockQuantityError(uid, owned, requested)], [owned] being
    the latest holding's quantity and 0 when there is none, and leaves the
    store as it was: balances, loan balances, holdings and the transaction
    log. *)
Theorem C5_sell_beyond_holding_is_rejected u t remove now1 now2 db user stock :
  users db !! u = Some user -> stocks db !! t = Some stock ->
  (most_recent u t (users_stocks db) = None \/
   exists h, most_recent u t (users_stocks db) = Some h /\ remove > quantity h) ->
  sellStock u t remove now1 now2 db
  = (Throw (InsufficientStockQuantityError u (held u t db) remove), db).
Proof.
  intros Huser Hstock Hheld. unfold sellStock, held. run.
  rewrite Huser, Hstock.
  destruct Hheld as [-> | (h & -> & Hgt)]; [reflexivity|].
  rewrite Z.gtb_ltb.
  destruct (Z.ltb_spec (quantity h) remove); [|lia].
  by rewrite or_else_0.
Qed.

Lemma C5_sell_beyond_holding_is_rejected_witness :
  sellStock "A" "XYZ" 10 3 4 db_five
  = (Throw (InsufficientStockQuantityError "A" (held "A" "XYZ" db_five) 10), db_five)
  /\ held "A" "XYZ" db_five = 5
  /\ sellStock "A" "XYZ" 1 3 4 db_cash
     = (Throw (InsufficientStockQuantityError "A" (held "A" "XYZ" db_cash) 1), db_cash)
  /\ held "A" "XYZ" db_cash = 0.
Proof.
  split; [|split; [|split]].
  - apply (C5_sell_beyond_holding_is_rejected "A" "XYZ" 10 3 4 db_five
             (mkUser "A" 500 0 0) (mkStock "XYZ" 100)).
    + vm_compute. reflexivity.
    + vm_compute. reflexivity.
    + right. exists (mkUserStock "A" "XYZ" 5 1).
      split; vm_compute; reflexivity.
  - vm_compute. reflexivity.
  - apply (C5_sell_beyond_holding_is_rejected "A" "XYZ" 1 3 4 db_cash
             (mkUser "A" 1000 0 0) (mkStock "XYZ" 100)).
    + vm_compute. reflexivity.
    + vm_compute. reflexivity.
    + left. vm_compute. reflexivity.
  - vm_compute. reflexivity.
Defined.

(** C6. A buy without [useCredit] by an existing user of an existing stock
    whose cost [price * quantity] is above the balance throws
    [InsufficientBalanceError(uid, balance, cost)] and leaves the store as it
    was: balances, loan balances, holdings and the transaction log. *)
Theorem C6_buy_without_funds_is_rejected u t add now1 now2 db user stock :
  users db !! u = Some user -> stocks db !! t = Some stock ->
  balance user < price stock * add ->
  buyStock u t add false now1 now2 db
  = (Throw (InsufficientBalanceError u (balance user) (price stock * add)), db).
Proof.
  intros Huser Hstock Hlt. unfold buyStock. run.
  rewrite Huser, Hstock. simpl.
  destruct (Z.ltb_spec (balance user) (price stock * add)); [reflexivity|lia].
Qed.

Lemma C6_buy_without_funds_is_rejected_witness :
  buyStock "A" "XYZ" 2 false 1 2 db_credit
  = (Throw (InsufficientBalanceError "A" 100 (100 * 2)), db_credit).
Proof.
  apply (C6_buy_without_funds_is_rejected "A" "XYZ" 2 1 2 db_credit
           (mkUser "A" 100 500 0) (mkStock "XYZ" 100));
    vm_compute; reflexivity.
Defined.

(** ** Holding snapshots *)

(** C7, as first stated, fails: a buy of a negative quantity passes the funds
    check (its cost is negative) and its snapshot has a negative quantity. *)
Lemma C7_buy_of_negative_quantity :
  exists r db' snapshot,
    buyStock "A" "XYZ" (-5) false 1 2 db_cash = (Ok r, db') /\
    held "A" "XYZ" db_cash = 0 /\
    users_stocks db' = users_stocks db_cash ++ [snapshot] /\
    quantity snapshot = held "A" "XYZ" db_cash + (-5) /\
    ~ 0 <= quantity snapshot.
Proof.
  do 3 eexists.
  split; [vm_compute; reflexivity|].
  split; [vm_compute; reflexivity|].
  split; [vm_compute; reflexivity|].
  split; [vm_compute; reflexivity|].
  simpl. lia.
Qed.

(** C7, amended. A trade that returns appends one snapshot.  After a buy its
    quantity is the quantity held before (0 without a holding) plus the
    quantity bought, and it is not negative when neither the quantity held
    before nor the quantity bought is.  After a sell its quantity is the
    quantity held before minus the quantity sold, and it is never
    negative. *)
Theorem C7_snapshot_quantity :
  (forall u t add useCredit now1 now2 db r db',
     buyStock u t add useCredit now1 now2 db = (Ok r, db') ->
     exists snapshot,
       users_stocks db' = users_stocks db ++ [snapshot] /\
       quantity snapshot = held u t db + add /\
       (0 <= held u t db -> 0 <= add -> 0 <= quantity snapshot)) /\
  (forall u t remove now1 now2 db r db',
     sellStock u t remove now1 now2 db = (Ok r, db') ->
     exists snapshot,
       users_stocks db' = users_stocks db ++ [snapshot] /\
       quantity snapshot = held u t db - remove /\
       0 <= quantity snapshot).
Proof.
  split.
  - intros u t add useCredit now1 now2 db r db' Hrun.
    destruct (buyStock_returns _ _ _ _ _ _ _ _ _ Hrun)
      as (user & stock & _ & _ & _ & _ & ->).
    eexists. split; [reflexivity|]. simpl. split; [reflexivity|lia].
  - intros u t remove now1 now2 db r db' Hrun.
    destruct (sellStock_returns _ _ _ _ _ _ _ _ Hrun)
      as (user & stock & h & _ & _ & Hh & Hle & _ & ->).
    eexists. split; [reflexivity|]. unfold held. rewrite Hh. simpl.
    split; [reflexivity|lia].
Qed.

Lemma C7_snapshot_quantity_witness :
  (exists snapshot,
     users_stocks (buyStock "A" "XYZ" 5 false 1 2 db_cash).2
       = users_stocks db_cash ++ [snapshot] /\
     quantity snapshot = held "A" "XYZ" db_cash + 5 /\
     (0 <= held "A" "XYZ" db_cash -> 0 <= 5 -> 0 <= quantity snapshot)) /\
  (exists snapshot,
     users_stocks (sellStock "A" "XYZ" 3 3 4 db_five).2
       = users_stocks db_five ++ [snapshot] /\
     quantity snapshot = held "A" "XYZ" db_five - 3 /\
     0 <= quantity snapshot).
Proof.
  split.
  - apply (proj1 C7_snapshot_quantity "A" "XYZ" 5 false 1 2 db_cash
             (mkStockTransaction buy "A" "XYZ" (-500) 0 5 100 500 2)).
    vm_compute. reflexivity.
  - apply (proj2 C7_snapshot_quantity "A" "XYZ" 3 3 4 db_five
             (mkStockTransaction sell "A" "XYZ" 300 0 3 100 300 4)).
    vm_compute. reflexivity.
Defined.

(** ** Updates without fields *)

(** C8. The two repositories on an update without fields.  [updateStock]
    throws its "No fields to update" error before any statement is sent.
    [updateUser] has no such check: it sends a statement with an empty [SET]
    list, and the only failure is the store refusing that statement.
    Neither writes. *)
Theorem C8_update_without_fields :
  (forall t db,
     StockDAO.updateStock t [] db = (Throw (Error "No fields to update"), db)) /\
  (forall u db,
     UserDAO.updateUser u [] db
     = (Throw (DatabaseError "UPDATE users SET  WHERE uid = $1"), db)).
Proof. split; intros; reflexivity. Qed.

(** ** Wires to an outside party *)

(** C9. A [wireToEntity] that returns changes the source user's balance and
    nothing else: the balance goes down by [amount], the row's other columns
    and every other user row are as before, as are the holdings and the
    stocks; the cash of all users together goes down by [amount]; one wire
    record is appended, with [balance_change = -amount] and
    [is_destination_user = false]. *)
Theorem C9_wireToEntity_debits_only_the_source f d amount now db r db' :
  wireToEntity f d amount now db = (Ok r, db') ->
  exists fromUser after,
    users db !! f = Some fromUser /\ users db' !! f = Some after /\
    balance after = balance fromUser - amount /\
    uid after = uid fromUser /\
    credit_limit after = credit_limit fromUser /\
    loan_balance after = loan_balance fromUser /\
    (forall v, v ≠ f -> users db' !! v = users db !! v) /\
    users_stocks db' = users_stocks db /\
    stocks db' = stocks db /\
    total_cash db' = total_cash db - amount /\
    transactions db' = transactions db ++ [TWire r] /\
    wire_balance_change r = - amount /\
    is_destination_user r = false.
Proof.
  intros Hrun.
  destruct (wireToEntity_returns _ _ _ _ _ _ _ Hrun)
    as (fromUser & Hfrom & _ & -> & ->).
  exists fromUser. unfold total_cash. simpl.
  erewrite alter_user_lookup by exact Hfrom.
  erewrite cash_fold_alter by exact Hfrom.
  eexists. split; [exact Hfrom|]. split; [reflexivity|]. simpl.
  repeat split; try reflexivity; try lia.
  intros v Hne. apply alter_user_other. congruence.
Qed.

Lemma C9_wireToEntity_debits_only_the_source_witness :
  exists fromUser after,
    users db_pair !! "A" = Some fromUser /\
    users (wireToEntity "A" "bank" 30 9 db_pair).2 !! "A" = Some after /\
    balance after = balance fromUser - 30 /\
    uid after = uid fromUser /\
    credit_limit after = credit_limit fromUser /\
    loan_balance after = loan_balance fromUser /\
    (forall v, v ≠ "A" ->
       users (wireToEntity "A" "bank" 30 9 db_pair).2 !! v = users db_pair !! v) /\
    users_stocks (wireToEntity "A" "bank" 30 9 db_pair).2 = users_stocks db_pair /\
    stocks (wireToEntity "A" "bank" 30 9 db_pair).2 = stocks db_pair /\
    total_cash (wireToEntity "A" "bank" 30 9 db_pair).2 = total_cash db_pair - 30 /\
    transactions (wireToEntity "A" "bank" 30 9 db_pair).2
      = transactions db_pair ++ [TWire (mkWireTransaction "A" (-30) "bank" false 9)] /\
    wire_balance_change (mkWireTransaction "A" (-30) "bank" false 9) = - 30 /\
    is_destination_user (mkWireTransaction "A" (-30) "bank" false 9) = false.
Proof.
  apply (C9_wireToEntity_debits_only_the_source "A" "bank" 30 9 db_pair
           (mkWireTransaction "A" (-30) "bank" false 9)).
  vm_compute. reflexivity.
Defined.

(** ** A wire to oneself *)

(** C10. [wireToUser(uid, uid, amount)] for an existing user with
    [balance >= amount] returns; the user's balance ends at the starting
    balance plus [amount], the credit to the destination being written after
    the debit of the source and from a read taken before it; the record
    still carries [balance_change = -amount]. *)
Theorem C10_wire_to_self_adds_amount u amount now db user :
  users db !! u = Some user ->
  balance user >= amount ->
  exists r db' after,
    wireToUser u u amount now db = (Ok r, db') /\
    users db' !! u = Some after /\
    balance after = balance user + amount /\
    wire_balance_change r = - amount /\
    transactions db' = transactions db ++ [TWire r].
Proof.
  intros Huser Hge.
  destruct (wireToUser_runs u u amount now db user user Huser Huser)
    as (r & db' & Hrun); [lia|].
  exists r, db'.
  destruct (wireToUser_returns _ _ _ _ _ _ _ Hrun)
    as (fromUser & destUser & Hfrom & Hdest & _ & Hr & Hdb).
  assert (fromUser = user) as -> by congruence.
  assert (destUser = user) as -> by congruence.
  pose proof (alter_user_lookup _ u _
                (fun row => mkUser (uid row) (balance user + amount)
                              (credit_limit row) (loan_balance row))
                (alter_user_lookup (users db) u user
                   (fun row => mkUser (uid row) (balance user - amount)
                                 (credit_limit row) (loan_balance row))
                   Huser)) as Hafter.
  eexists. split; [exact Hrun|]. split.
  - rewrite Hdb. simpl. exact Hafter.
  - rewrite Hdb, Hr. simpl. repeat split; reflexivity.
Qed.

Lemma C10_wire_to_self_adds_amount_witness :
  exists r db' after,
    wireToUser "A" "A" 50 1 db_credit = (Ok r, db') /\
    users db' !! "A" = Some after /\
    balance after = 100 + 50 /\
    wire_balance_change r = - 50 /\
    transactions db' = transactions db_credit ++ [TWire r].
Proof.
  apply (C10_wire_to_self_adds_amount "A" 50 1 db_credit (mkUser "A" 100 500 0)).
  - vm_compute. reflexivity.
  - vm_compute. discriminate.
Defined.

(** * Further properties of the ledger *)

(** ** What each operation does when it throws *)






(** ** Rejections *)





(** X3. The errors of a wire and their order.  An unknown source is reported
    first, then an unknown destination, whatever the amount; only then is
    the source's balance compared with the amount, and a balance below it
    gives [InsufficientBalanceError(fromUid, balance, amount)].  The store is
    left as it was each time. *)
Theorem wire_errors_in_order f d amount now db :
  (users db !! f = None ->
     wireToUser f d amount now db = (Throw (UserNotFoundError f), db) /\
     wireToEntity f d amount now db = (Throw (UserNotFoundError f), db)) /\
  (is_Some (users db !! f) -> users db !! d = None ->
     wireToUser f d amount now db = (Throw (UserNotFoundError d), db)) /\
  (forall fromUser,
     users db !! f = Some fromUser -> balance fromUser < amount ->
     (is_Some (users db !! d) ->
        wireToUser f d amount now db
        = (Throw (InsufficientBalanceError f (balance fromUser) amount), db)) /\
     wireToEntity f d amount now db
     = (Throw (InsufficientBalanceError f (balance fromUser) amount), db)).
Proof.
  split; [|split].
  - intros Hnone. split.
    + unfold wireToUser. run. by rewrite Hnone.
    + unfold wireToEntity. run. by rewrite Hnone.
  - intros [fromUser Hfrom] Hnone. unfold wireToUser. run.
    by rewrite Hfrom, Hnone.
  - intros fromUser Hfrom Hlt. split.
    + intros [destUser Hdest]. unfold wireToUser. run. rewrite Hfrom, Hdest.
      destruct (Z.ltb_spec (balance fromUser) amount); [done|lia].
    + unfold wireToEntity. run. rewrite Hfrom.
      destruct (Z.ltb_spec (balance fromUser) amount); [done|lia].
Qed.

Lemma wire_errors_in_order_witness :
  (wireToUser "Z" "Y" 1 7 db_pair = (Throw (UserNotFoundError "Z"), db_pair) /\
   wireToEntity "Z" "Y" 1 7 db_pair = (Throw (UserNotFoundError "Z"), db_pair)) /\
  wireToUser "B" "Y" 41 7 db_pair = (Throw (UserNotFoundError "Y"), db_pair) /\
  ((is_Some (users db_pair !! "A") ->
      wireToUser "B" "A" 41 7 db_pair
      = (Throw (InsufficientBalanceError "B" 40 41), db_pair)) /\
   wireToEntity "B" "A" 41 7 db_pair
   = (Throw (InsufficientBalanceError "B" 40 41), db_pair)).
Proof.
  split; [|split].
  - apply (proj1 (wire_errors_in_order "Z" "Y" 1 7 db_pair)).
    vm_compute. reflexivity.
  - apply (proj1 (proj2 (wire_errors_in_order "B" "Y" 41 7 db_pair))).
    + exists (mkUser "B" 40 0 0). vm_compute. reflexivity.
    + vm_compute. reflexivity.
  - apply (proj2 (proj2 (wire_errors_in_order "B" "A" 41 7 db_pair))
             (mkUser "B" 40 0 0)).
    + vm_compute. reflexivity.
    + vm_compute. reflexivity.
Defined.

(** ** What a returning operation leaves alone *)

(** X4. A ledger operation that returns appends the returned record, and
    nothing else, to the transaction log; it leaves the stocks as they were
    and neither adds nor removes a user.  A trade appends one holding
    snapshot, for the trader and the ticker traded, and rewrites none; a wire
    leaves the holdings as they were. *)
Theorem ledger_return_appends_one_record op db r db' :
  run_op op db = (Ok r, db') ->
  transactions db' = transactions db ++ [r] /\
  stocks db' = stocks db /\
  dom (users db') = dom (users db) /\
  match op with
  | OpBuy u t _ _ now1 _ | OpSell u t _ now1 _ =>
      exists q, users_stocks db' = users_stocks db ++ [mkUserStock u t q now1]
  | OpWireToUser _ _ _ _ | OpWireToEntity _ _ _ _ =>
      users_stocks db' = users_stocks db
  end.
Proof.
  intros Hrun. apply run_op_returns in Hrun.
  destruct op as [u t add useCredit now1 now2 | u t remove now1 now2
                 | f d amount now | f d amount now];
    destruct Hrun as (rec & -> & Hrun).
  - destruct (buyStock_returns _ _ _ _ _ _ _ _ _ Hrun)
      as (user & stock & _ & _ & _ & _ & ->).
    simpl. rewrite dom_alter_L. eauto.
  - destruct (sellStock_returns _ _ _ _ _ _ _ _ Hrun)
      as (user & stock & h & _ & _ & _ & _ & _ & ->).
    simpl. rewrite dom_alter_L. eauto.
  - destruct (wireToUser_returns _ _ _ _ _ _ _ Hrun)
      as (fromUser & destUser & _ & _ & _ & _ & ->).
    simpl. rewrite !dom_alter_L. auto.
  - destruct (wireToEntity_returns _ _ _ _ _ _ _ Hrun)
      as (fromUser & _ & _ & _ & ->).
    simpl. rewrite dom_alter_L. auto.
Qed.

Lemma ledger_return_appends_one_record_witness :
  transactions (run_op (OpSell "A" "XYZ" 3 3 4) db_five).2
  = transactions db_five
      ++ [TStock (mkStockTransaction sell "A" "XYZ" 300 0 3 100 300 4)] /\
  stocks (run_op (OpSell "A" "XYZ" 3 3 4) db_five).2 = stocks db_five /\
  dom (users (run_op (OpSell "A" "XYZ" 3 3 4) db_five).2) = dom (users db_five) /\
  exists q,
    users_stocks (run_op (OpSell "A" "XYZ" 3 3 4) db_five).2
    = users_stocks db_five ++ [mkUserStock "A" "XYZ" q 3].
Proof.
  apply (ledger_return_appends_one_record (OpSell "A" "XYZ" 3 3 4) db_five
           (TStock (mkStockTransaction sell "A" "XYZ" 300 0 3 100 300 4))).
  vm_compute. reflexivity.
Defined.

Lemma double_alter_frame (m : gmap string User) f d (g1 g2 : User -> User) v row :
  (forall x, uid (g1 x) = uid x /\ credit_limit (g1 x) = credit_limit x) ->
  (forall x, uid (g2 x) = uid x /\ credit_limit (g2 x) = credit_limit x) ->
  m !! v = Some row ->
  exists row', alter g2 d (alter g1 f m) !! v = Some row' /\
    uid row' = uid row /\ credit_limit row' = credit_limit row /\
    (v ≠ f -> v ≠ d -> row' = row).
Proof.
  intros Hg1 Hg2 Hrow.
  destruct (decide (d = v)) as [->|Hd]; destruct (decide (f = v)) as [->|Hf].
  - exists (g2 (g1 row)).
    rewrite lookup_alter_eq, lookup_alter_eq, Hrow. simpl.
    destruct (Hg2 (g1 row)) as [-> ->]. destruct (Hg1 row) as [-> ->].
    repeat split; congruence.
  - exists (g2 row).
    rewrite lookup_alter_eq, lookup_alter_ne, Hrow by done. simpl.
    destruct (Hg2 row) as [-> ->]. repeat split; congruence.
  - exists (g1 row).
    rewrite lookup_alter_ne, lookup_alter_eq, Hrow by done. simpl.
    destruct (Hg1 row) as [-> ->]. repeat split; congruence.
  - exists row. rewrite !lookup_alter_ne by done. auto.
Qed.

Lemma single_alter_frame (m : gmap string User) f (g : User -> User) v row :
  (forall x, uid (g x) = uid x /\ credit_limit (g x) = credit_limit x) ->
  m !! v = Some row ->
  exists row', alter g f m !! v = Some row' /\
    uid row' = uid row /\ credit_limit row' = credit_limit row /\
    (v ∉ [f] -> row' = row).
Proof.
  intros Hg Hrow.
  destruct (decide (f = v)) as [->|Hf].
  - exists (g row). rewrite lookup_alter_eq, Hrow. simpl.
    destruct (Hg row) as [Huid Hlimit].
    split; [done|]. split; [done|]. split; [done|].
    intros Hnot. exfalso. apply Hnot. apply list_elem_of_singleton. done.
  - exists row. rewrite lookup_alter_ne by done. auto.
Qed.

(** X5. Across a ledger operation that returns, every user row keeps its
    [uid] and its [credit_limit], and the row of a user the operation does
    not name (neither the trader nor an end of the wire) is left exactly as
    it was. *)
Theorem ledger_return_frames_other_users op db r db' v row :
  run_op op db = (Ok r, db') ->
  users db !! v = Some row ->
  exists row',
    users db' !! v = Some row' /\
    uid row' = uid row /\ credit_limit row' = credit_limit row /\
    (v ∉ op_users op -> row' = row).
Proof.
  intros Hrun Hrow. apply run_op_returns in Hrun.
  pose proof (fun m f g Hg => single_alter_frame m f g v row Hg) as Hone.
  destruct op as [u t add useCredit now1 now2 | u t remove now1 now2
                 | f d amount now | f d amount now];
    destruct Hrun as (rec & _ & Hrun).
  - destruct (buyStock_returns _ _ _ _ _ _ _ _ _ Hrun)
      as (user & stock & _ & _ & _ & _ & ->).
    simpl. apply Hone; [done|done].
  - destruct (sellStock_returns _ _ _ _ _ _ _ _ Hrun)
      as (user & stock & h & _ & _ & _ & _ & _ & ->).
    simpl. apply Hone; [done|done].
  - destruct (wireToUser_returns _ _ _ _ _ _ _ Hrun)
      as (fromUser & destUser & _ & _ & _ & _ & ->).
    simpl.
    destruct (double_alter_frame (users db) f d
                (fun row0 => mkUser (uid row0) (balance fromUser - amount)
                               (credit_limit row0) (loan_balance row0))
                (fun row0 => mkUser (uid row0) (balance destUser + amount)
                               (credit_limit row0) (loan_balance row0))
                v row) as (row' & Hl & ? & ? & Hfr); [done|done|done|].
    exists row'. repeat split; try done. intros Hnot. apply Hfr; set_solver.
  - destruct (wireToEntity_returns _ _ _ _ _ _ _ Hrun)
      as (fromUser & _ & _ & _ & ->).
    simpl. apply Hone; [done|done].
Qed.

Lemma ledger_return_frames_other_users_witness :
  exists row',
    users (run_op (OpWireToEntity "A" "bank" 30 9) db_pair).2 !! "B" = Some row' /\
    uid row' = "B" /\ credit_limit row' = 0 /\
    ("B" ∉ op_users (OpWireToEntity "A" "bank" 30 9) -> row' = mkUser "B" 40 0 0).
Proof.
  apply (ledger_return_frames_other_users (OpWireToEntity "A" "bank" 30 9) db_pair
           (TWire (mkWireTransaction "A" (-30) "bank" false 9))
           (run_op (OpWireToEntity "A" "bank" 30 9) db_pair).2
           "B" (mkUser "B" 40 0 0)).
  - vm_compute. reflexivity.
  - vm_compute. reflexivity.
Defined.

(** ** Cash *)

(** X6. The cash of all users together moves with a trade by exactly the
    record's [balance_change], and a wire between two different users leaves
    it as it was. *)
Theorem ledger_cash_accounting :
  (forall u t add useCredit now1 now2 db r db',
     buyStock u t add useCredit now1 now2 db = (Ok r, db') ->
     total_cash db' = total_cash db + balance_change r) /\
  (forall u t remove now1 now2 db r db',
     sellStock u t remove now1 now2 db = (Ok r, db') ->
     total_cash db' = total_cash db + balance_change r) /\
  (forall f d amount now db r db',
     f ≠ d ->
     wireToUser f d amount now db = (Ok r, db') ->
     total_cash db' = total_cash db).
Proof.
  unfold total_cash. split; [|split].
  - intros u t add useCredit now1 now2 db r db' Hrun.
    destruct (buyStock_returns _ _ _ _ _ _ _ _ _ Hrun)
      as (user & stock & Huser & _ & _ & -> & ->).
    simpl. erewrite cash_fold_alter by exact Huser. simpl. lia.
  - intros u t remove now1 now2 db r db' Hrun.
    destruct (sellStock_returns _ _ _ _ _ _ _ _ Hrun)
      as (user & stock & h & Huser & _ & _ & _ & -> & ->).
    simpl. erewrite cash_fold_alter by exact Huser. simpl. lia.
  - intros f d amount now db r db' Hne Hrun.
    destruct (wireToUser_returns _ _ _ _ _ _ _ Hrun)
      as (fromUser & destUser & Hfrom & Hdest & _ & _ & ->).
    simpl.
    erewrite cash_fold_alter
      by (rewrite alter_user_other by done; exact Hdest).
    erewrite cash_fold_alter by exact Hfrom. simpl. lia.
Qed.

Lemma ledger_cash_accounting_witness :
  total_cash (buyStock "A" "XYZ" 2 true 1 2 db_credit).2
    = total_cash db_credit + (-100) /\
  total_cash (sellStock "A" "XYZ" 3 3 4 db_five).2 = total_cash db_five + 300 /\
  total_cash (wireToUser "A" "B" 30 9 db_pair).2 = total_cash db_pair.
Proof.
  split; [|split].
  - apply (proj1 ledger_cash_accounting "A" "XYZ" 2 true 1 2 db_credit
             (mkStockTransaction buy "A" "XYZ" (-100) 100 2 100 200 2)).
    vm_compute. reflexivity.
  - apply (proj1 (proj2 ledger_cash_accounting) "A" "XYZ" 3 3 4 db_five
             (mkStockTransaction sell "A" "XYZ" 300 0 3 100 300 4)).
    vm_compute. reflexivity.
  - apply (proj2 (proj2 ledger_cash_accounting) "A" "B" 30 9 db_pair
             (mkWireTransaction "A" (-30) "B" true 9)).
    + discriminate.
    + vm_compute. reflexivity.
Defined.

(** ** The edge of the credit line *)

(** X7. The funds check is strict.  A buy whose cost is above the balance
    and not below balance plus available credit is rejected with
    [InsufficientBalanceError] even with [useCredit]: credit that would cover
    the shortfall exactly is not enough.  Hence a buy that draws on credit
    leaves the loan balance strictly below the credit limit. *)
Theorem credit_line_is_never_exhausted :
  (forall u t add now1 now2 db user stock,
     users db !! u = Some user -> stocks db !! t = Some stock ->
     balance user < price stock * add ->
     balance user + Z.max (credit_limit user - loan_balance user) 0
       <= price stock * add ->
     buyStock u t add true now1 now2 db
     = (Throw (InsufficientBalanceError u (balance user) (price stock * add)), db)) /\
  (forall u t add useCredit now1 now2 db r db',
     buyStock u t add useCredit now1 now2 db = (Ok r, db') ->
     credit_change r <> 0 ->
     exists user', users db' !! u = Some user' /\
                   loan_balance user' < credit_limit user').
Proof.
  split.
  - intros u t add now1 now2 db user stock Huser Hstock Hlt Hle.
    unfold buyStock. run. rewrite Huser, Hstock. simpl.
    destruct (Z.ltb_spec (balance user) (price stock * add)); [|lia].
    simpl. rewrite Z.gtb_ltb.
    destruct (Z.ltb_spec (price stock * add)
                (balance user + Z.max (credit_limit user - loan_balance user) 0));
      [lia|reflexivity].
  - intros u t add useCredit now1 now2 db r db' Hrun Hdrawn.
    destruct (buyStock_returns _ _ _ _ _ _ _ _ _ Hrun)
      as (user & stock & Huser & _ & Hfunds & Hr & ->).
    simpl. erewrite alter_user_lookup by exact Huser.
    eexists. split; [reflexivity|]. simpl.
    rewrite Hr in Hdrawn. simpl in Hdrawn. unfold buy_credit in *.
    destruct (Z.ltb_spec (balance user) (price stock * add)) as [Hlt|Hge];
      [destruct (Hfunds Hlt) as [_ Hcr]; lia | congruence].
Qed.

Lemma credit_line_is_never_exhausted_witness :
  buyStock "A" "XYZ" 6 true 1 2 db_credit
  = (Throw (InsufficientBalanceError "A" 100 (100 * 6)), db_credit) /\
  exists user',
    users (buyStock "A" "XYZ" 2 true 1 2 db_credit).2 !! "A" = Some user' /\
    loan_balance user' < credit_limit user'.
Proof.
  split.
  - apply (proj1 credit_line_is_never_exhausted "A" "XYZ" 6 1 2 db_credit
             (mkUser "A" 100 500 0) (mkStock "XYZ" 100));
      vm_compute; try reflexivity. discriminate.
  - apply (proj2 credit_line_is_never_exhausted "A" "XYZ" 2 true 1 2 db_credit
             (mkStockTransaction buy "A" "XYZ" (-100) 100 2 100 200 2)).
    + vm_compute. reflexivity.
    + vm_compute. discriminate.
Defined.

(** X8. When the balance covers the cost, [useCredit] makes no difference:
    the buy returns, draws no credit, takes the whole cost from the balance
    and leaves the loan balance as it was. *)
Theorem covered_buy_ignores_useCredit u t add now1 now2 db user stock :
  users db !! u = Some user -> stocks db !! t = Some stock ->
  price stock * add <= balance user ->
  buyStock u t add true now1 now2 db = buyStock u t add false now1 now2 db /\
  exists r db',
    buyStock u t add true now1 now2 db = (Ok r, db') /\
    credit_change r = 0 /\
    balance_change r = - (price stock * add) /\
    users db' !! u
    = Some (mkUser (uid user) (balance user - price stock * add)
              (credit_limit user) (loan_balance user)).
Proof.
  intros Huser Hstock Hle. split.
  - unfold buyStock. run. rewrite Huser, Hstock. simpl.
    destruct (Z.ltb_spec (balance user) (price stock * add)); [lia|reflexivity].
  - destruct (buyStock_runs u t add true now1 now2 db user stock Huser Hstock)
      as (r & db' & Hrun); [lia|].
    exists r, db'. split; [exact Hrun|].
    destruct (buyStock_returns _ _ _ _ _ _ _ _ _ Hrun)
      as (user1 & stock1 & Huser1 & Hstock1 & _ & -> & ->).
    assert (user1 = user) as -> by congruence.
    assert (stock1 = stock) as -> by congruence.
    simpl. erewrite alter_user_lookup by exact Huser.
    unfold buy_credit.
    destruct (Z.ltb_spec (balance user) (price stock * add)); [lia|].
    repeat split; [lia|]. do 2 f_equal; lia.
Qed.

Lemma covered_buy_ignores_useCredit_witness :
  buyStock "A" "XYZ" 1 true 1 2 db_credit = buyStock "A" "XYZ" 1 false 1 2 db_credit /\
  exists r db',
    buyStock "A" "XYZ" 1 true 1 2 db_credit = (Ok r, db') /\
    credit_change r = 0 /\
    balance_change r = - (100 * 1) /\
    users db' !! "A" = Some (mkUser "A" (100 - 100 * 1) 500 0).
Proof.
  apply (covered_buy_ignores_useCredit "A" "XYZ" 1 1 2 db_credit
           (mkUser "A" 100 500 0) (mkStock "XYZ" 100)).
  - vm_compute. reflexivity.
  - vm_compute. reflexivity.
  - vm_compute. discriminate.
Defined.

(** ** Signs are not checked *)

(** X9. [wireToUser] does not look at the sign of the amount.  Between two
    different users, a negative amount that is not above the source's
    balance is accepted, and it is the destination that pays: its balance
    goes down by the absolute amount, whatever it was, and the source's goes
    up. *)
Theorem wire_of_negative_amount_debits_destination
    f d amount now db fromUser destUser :
  f ≠ d ->
  users db !! f = Some fromUser -> users db !! d = Some destUser ->
  amount < 0 -> amount <= balance fromUser ->
  exists r db' fromUser' destUser',
    wireToUser f d amount now db = (Ok r, db') /\
    users db' !! f = Some fromUser' /\ users db' !! d = Some destUser' /\
    balance destUser' = balance destUser - Z.abs amount /\
    balance fromUser' = balance fromUser + Z.abs amount.
Proof.
  intros Hne Hfrom Hdest Hneg Hle.
  destruct (wireToUser_runs f d amount now db fromUser destUser Hfrom Hdest Hle)
    as (r & db' & Hrun).
  exists r, db'.
  destruct (wireToUser_returns _ _ _ _ _ _ _ Hrun)
    as (fromUser1 & destUser1 & Hfrom1 & Hdest1 & _ & _ & Hdb).
  assert (fromUser1 = fromUser) as -> by congruence.
  assert (destUser1 = destUser) as -> by congruence.
  subst db'. simpl.
  rewrite (alter_user_other _ d f) by congruence.
  erewrite (alter_user_lookup _ f) by exact Hfrom.
  erewrite (alter_user_lookup _ d)
    by (rewrite alter_user_other by done; exact Hdest).
  do 2 eexists. split; [exact Hrun|]. split; [reflexivity|].
  split; [reflexivity|]. simpl. lia.
Qed.

Lemma wire_of_negative_amount_debits_destination_witness :
  exists r db' fromUser' destUser',
    wireToUser "A" "B" (-70) 9 db_pair = (Ok r, db') /\
    users db' !! "A" = Some fromUser' /\ users db' !! "B" = Some destUser' /\
    balance destUser' = 40 - Z.abs (-70) /\
    balance fromUser' = 100 + Z.abs (-70).
Proof.
  apply (wire_of_negative_amount_debits_destination "A" "B" (-70) 9 db_pair
           (mkUser "A" 100 500 0) (mkUser "B" 40 0 0)).
  - discriminate.
  - vm_compute. reflexivity.
  - vm_compute. reflexivity.
  - vm_compute. reflexivity.
  - vm_compute. discriminate.
Defined.

(** X10. [sellStock] does not look at the sign of the quantity either, nor
    at the balance.  A sell of a negative quantity by the holder of a
    position is accepted whenever that quantity is not above the one held:
    the snapshot's quantity goes up by the absolute quantity and the balance
    is charged the price of that many shares, without any funds check. *)
Theorem sell_of_negative_quantity_buys_unchecked
    u t remove now1 now2 db user stock h :
  users db !! u = Some user -> stocks db !! t = Some stock ->
  most_recent u t (users_stocks db) = Some h ->
  remove < 0 -> remove <= quantity h ->
  exists r db' user',
    sellStock u t remove now1 now2 db = (Ok r, db') /\
    users_stocks db'
    = users_stocks db ++ [mkUserStock u t (quantity h + Z.abs remove) now1] /\
    users db' !! u = Some user' /\
    balance user' = balance user - price stock * Z.abs remove.
Proof.
  intros Huser Hstock Hh Hneg Hle.
  destruct (sellStock_runs u t remove now1 now2 db user stock h
              Huser Hstock Hh Hle) as (r & db' & Hrun).
  exists r, db'.
  destruct (sellStock_returns _ _ _ _ _ _ _ _ Hrun)
    as (user1 & stock1 & h1 & Huser1 & Hstock1 & Hh1 & _ & _ & Hdb).
  assert (user1 = user) as -> by congruence.
  assert (stock1 = stock) as -> by congruence.
  assert (h1 = h) as -> by congruence.
  subst db'. simpl.
  erewrite alter_user_lookup by exact Huser.
  eexists. split; [exact Hrun|]. split; [|split; [reflexivity|simpl; lia]].
  do 3 f_equal. lia.
Qed.

Lemma sell_of_negative_quantity_buys_unchecked_witness :
  exists r db' user',
    sellStock "A" "XYZ" (-20) 3 4 db_five = (Ok r, db') /\
    users_stocks db'
    = users_stocks db_five ++ [mkUserStock "A" "XYZ" (5 + Z.abs (-20)) 3] /\
    users db' !! "A" = Some user' /\
    balance user' = 500 - 100 * Z.abs (-20).
Proof.
  apply (sell_of_negative_quantity_buys_unchecked "A" "XYZ" (-20) 3 4 db_five
           (mkUser "A" 500 0 0) (mkStock "XYZ" 100) (mkUserStock "A" "XYZ" 5 1)).
  - vm_compute. reflexivity.
  - vm_compute. reflexivity.
  - vm_compute. reflexivity.
  - vm_compute. reflexivity.
  - vm_compute. discriminate.
Defined.

(** ** The latest snapshot *)

Lemma most_recent_snoc u t rows x :
  most_recent u t (rows ++ [x])
  = if holding_matches u t x then newer (most_recent u t rows) x
    else most_recent u t rows.
Proof.
  unfold most_recent. rewrite filter_app, foldl_app.
  rewrite filter_cons, filter_nil.
  destruct (holding_matches u t x); case_decide; simpl; congruence.
Qed.

Lemma holding_matches_same u t q now :
  holding_matches u t (mkUserStock u t q now) = true.
Proof.
  unfold holding_matches. simpl.
  rewrite !bool_decide_eq_true_2; done.
Qed.

Lemma holding_matches_other u t u' t' q now :
  (u', t') ≠ (u, t) -> holding_matches u' t' (mkUserStock u t q now) = false.
Proof.
  intros Hne. unfold holding_matches. simpl.
  destruct (decide (u = u')) as [->|Hu]; destruct (decide (t = t')) as [->|Ht];
    try done.
  - rewrite (bool_decide_eq_false_2 (t = t')) by done. apply andb_false_r.
  - rewrite (bool_decide_eq_false_2 (u = u')) by done. done.
  - rewrite (bool_decide_eq_false_2 (u = u')) by done. done.
Qed.

(** What a user is seen to hold once one more snapshot is in the table. *)
Lemma held_after_snapshot db db' u t q now :
  users_stocks db' = users_stocks db ++ [mkUserStock u t q now] ->
  ((forall h, most_recent u t (users_stocks db) = Some h -> timestamp h < now) ->
     most_recent u t (users_stocks db') = Some (mkUserStock u t q now)) /\
  (forall h, most_recent u t (users_stocks db) = Some h -> now < timestamp h ->
     most_recent u t (users_stocks db') = Some h) /\
  (forall u' t', (u', t') ≠ (u, t) ->
     most_recent u' t' (users_stocks db') = most_recent u' t' (users_stocks db)).
Proof.
  intros ->. split; [|split].
  - intros Hlater. rewrite most_recent_snoc, holding_matches_same.
    destruct (most_recent u t (users_stocks db)) as [h|]; [|done].
    simpl. specialize (Hlater h eq_refl).
    destruct (Z.ltb_spec (timestamp h) now); [done|lia].
  - intros h Hh Hearlier. rewrite most_recent_snoc, holding_matches_same, Hh.
    simpl. destruct (Z.ltb_spec (timestamp h) now); [lia|done].
  - intros u' t' Hne. by rewrite most_recent_snoc, holding_matches_other.
Qed.

(** X11. Writing a snapshot and reading the latest one.  After a trade that
    returns with a clock reading later than the timestamp of the trader's
    latest snapshot for the ticker (or without such a snapshot),
    [getMostRecentStockHolding] returns the trade's snapshot: the quantity
    held is the old one plus the quantity bought or minus the quantity sold.
    With a clock reading earlier than that timestamp the old snapshot stays
    the latest.  The latest snapshot of every other user or ticker is as
    before. *)
Theorem trade_then_latest_holding :
  (forall u t add useCredit now1 now2 db r db',
     buyStock u t add useCredit now1 now2 db = (Ok r, db') ->
     ((forall h, most_recent u t (users_stocks db) = Some h -> timestamp h < now1) ->
        UserDAO.getMostRecentStockHolding u t db'
        = (Ok (Some (mkUserStock u t (held u t db + add) now1)), db')) /\
     (forall h, most_recent u t (users_stocks db) = Some h -> now1 < timestamp h ->
        UserDAO.getMostRecentStockHolding u t db' = (Ok (Some h), db')) /\
     (forall u' t', (u', t') ≠ (u, t) ->
        UserDAO.getMostRecentStockHolding u' t' db'
        = (Ok (most_recent u' t' (users_stocks db)), db'))) /\
  (forall u t remove now1 now2 db r db',
     sellStock u t remove now1 now2 db = (Ok r, db') ->
     ((forall h, most_recent u t (users_stocks db) = Some h -> timestamp h < now1) ->
        UserDAO.getMostRecentStockHolding u t db'
        = (Ok (Some (mkUserStock u t (held u t db - remove) now1)), db')) /\
     (forall h, most_recent u t (users_stocks db) = Some h -> now1 < timestamp h ->
        UserDAO.getMostRecentStockHolding u t db' = (Ok (Some h), db')) /\
     (forall u' t', (u', t') ≠ (u, t) ->
        UserDAO.getMostRecentStockHolding u' t' db'
        = (Ok (most_recent u' t' (users_stocks db)), db'))).
Proof.
  unfold UserDAO.getMostRecentStockHolding. split.
  - intros u t add useCredit now1 now2 db r db' Hrun.
    destruct (buyStock_returns _ _ _ _ _ _ _ _ _ Hrun)
      as (user & stock & _ & _ & _ & _ & Hdb).
    assert (users_stocks db'
            = users_stocks db ++ [mkUserStock u t (held u t db + add) now1])
      as Hrows by (rewrite Hdb; reflexivity).
    destruct (held_after_snapshot _ _ _ _ _ _ Hrows) as (Hlater & Hearlier & Hother).
    split; [|split].
    + intros Hts. by rewrite Hlater.
    + intros h Hh Hts. by rewrite (Hearlier h).
    + intros u' t' Hne. by rewrite Hother.
  - intros u t remove now1 now2 db r db' Hrun.
    destruct (sellStock_returns _ _ _ _ _ _ _ _ Hrun)
      as (user & stock & h0 & _ & _ & Hh0 & _ & _ & Hdb).
    assert (users_stocks db'
            = users_stocks db ++ [mkUserStock u t (held u t db - remove) now1])
      as Hrows by (rewrite Hdb; unfold held; rewrite Hh0; reflexivity).
    destruct (held_after_snapshot _ _ _ _ _ _ Hrows) as (Hlater & Hearlier & Hother).
    split; [|split].
    + intros Hts. by rewrite Hlater.
    + intros h Hh Hts. by rewrite (Hearlier h).
    + intros u' t' Hne. by rewrite Hother.
Qed.

Lemma trade_then_latest_holding_witness :
  UserDAO.getMostRecentStockHolding "A" "XYZ"
    (buyStock "A" "XYZ" 2 false 5 6 db_five).2
  = (Ok (Some (mkUserStock "A" "XYZ" (held "A" "XYZ" db_five + 2) 5)),
     (buyStock "A" "XYZ" 2 false 5 6 db_five).2) /\
  UserDAO.getMostRecentStockHolding "A" "XYZ"
    (sellStock "A" "XYZ" 2 0 6 db_five).2
  = (Ok (Some (mkUserStock "A" "XYZ" 5 1)), (sellStock "A" "XYZ" 2 0 6 db_five).2).
Proof.
  split.
  - assert (buyStock "A" "XYZ" 2 false 5 6 db_five
            = (Ok (mkStockTransaction buy "A" "XYZ" (-200) 0 2 100 200 6),
               (buyStock "A" "XYZ" 2 false 5 6 db_five).2)) as Hrun
      by (vm_compute; reflexivity).
    apply (proj1 (proj1 trade_then_latest_holding _ _ _ _ _ _ _ _ _ Hrun)).
    intros h Hh. vm_compute in Hh. inversion Hh. vm_compute. reflexivity.
  - assert (sellStock "A" "XYZ" 2 0 6 db_five
            = (Ok (mkStockTransaction sell "A" "XYZ" 200 0 2 100 200 6),
               (sellStock "A" "XYZ" 2 0 6 db_five).2)) as Hrun
      by (vm_compute; reflexivity).
    apply (proj1 (proj2 (proj2 trade_then_latest_holding _ _ _ _ _ _ _ _ Hrun))).
    + vm_compute. reflexivity.
    + vm_compute. reflexivity.
Defined.

(** ** Buying and selling back *)

Lemma alter_back (m : gmap string User) u row (g1 g2 : User -> User) :
  m !! u = Some row -> g2 (g1 row) = row -> alter g2 u (alter g1 u m) = m.
Proof.
  intros Hrow Hback. apply map_eq. intros v.
  destruct (decide (u = v)) as [->|Hne].
  - by rewrite !lookup_alter_eq, Hrow; simpl; rewrite Hback.
  - by rewrite !lookup_alter_ne.
Qed.

(** X12. A buy the balance covers, followed by a sell of the same quantity at
    the same price, each with a clock reading later than the snapshot before
    it, undoes itself for a user holding no negative quantity: both calls
    return, the users table and the stocks are what they were, the quantity
    held is what it was, and the two records' [balance_change]s cancel.  The
    holdings table and the log keep two more rows each. *)
Theorem buy_then_sell_back u t add useCredit now1 now2 now3 now4 db user stock :
  users db !! u = Some user -> stocks db !! t = Some stock ->
  price stock * add <= balance user ->
  0 <= held u t db ->
  (forall h, most_recent u t (users_stocks db) = Some h -> timestamp h < now1) ->
  now1 < now3 ->
  exists r1 db1 r2 db2,
    buyStock u t add useCredit now1 now2 db = (Ok r1, db1) /\
    sellStock u t add now3 now4 db1 = (Ok r2, db2) /\
    users db2 = users db /\ stocks db2 = stocks db /\
    held u t db2 = held u t db /\
    balance_change r1 + balance_change r2 = 0 /\
    length (users_stocks db2) = (length (users_stocks db) + 2)%nat /\
    transactions db2 = transactions db ++ [TStock r1; TStock r2].
Proof.
  intros Huser Hstock Hle Hheld Hts Hclock.
  destruct (buyStock_runs u t add useCredit now1 now2 db user stock Huser Hstock)
    as (r1 & db1 & Hbuy); [lia|].
  destruct (buyStock_returns _ _ _ _ _ _ _ _ _ Hbuy)
    as (user0 & stock0 & Huser0 & Hstock0 & _ & Hr1 & Hdb1).
  assert (user0 = user) as -> by congruence.
  assert (stock0 = stock) as -> by congruence.
  unfold buy_credit in Hr1, Hdb1.
  destruct (Z.ltb_spec (balance user) (price stock * add)); [lia|].
  assert (users_stocks db1
          = users_stocks db ++ [mkUserStock u t (held u t db + add) now1])
    as Hrows1 by (rewrite Hdb1; reflexivity).
  destruct (held_after_snapshot _ _ _ _ _ _ Hrows1) as (Hlatest1 & _ & _).
  specialize (Hlatest1 Hts).
  assert (users db1 !! u
          = Some (mkUser (uid user) (balance user + 0 - price stock * add)
                    (credit_limit user) (loan_balance user + 0))) as Huser1.
  { rewrite Hdb1. simpl. erewrite alter_user_lookup by exact Huser. reflexivity. }
  assert (stocks db1 !! t = Some stock) as Hstock1 by (rewrite Hdb1; done).
  destruct (sellStock_runs u t add now3 now4 db1 _ stock _ Huser1 Hstock1 Hlatest1)
    as (r2 & db2 & Hsell); [simpl; lia|].
  exists r1, db1, r2, db2. split; [exact Hbuy|]. split; [exact Hsell|].
  destruct (sellStock_returns _ _ _ _ _ _ _ _ Hsell)
    as (user2 & stock2 & h2 & Huser2 & Hstock2 & Hh2 & _ & Hr2 & Hdb2).
  assert (user2 = mkUser (uid user) (balance user + 0 - price stock * add)
                    (credit_limit user) (loan_balance user + 0)) as ->
    by congruence.
  assert (stock2 = stock) as -> by congruence.
  assert (h2 = mkUserStock u t (held u t db + add) now1) as -> by congruence.
  simpl in Hr2, Hdb2.
  assert (users_stocks db2
          = users_stocks db1 ++ [mkUserStock u t (held u t db + add - add) now3])
    as Hrows2 by (rewrite Hdb2; reflexivity).
  destruct (held_after_snapshot _ _ _ _ _ _ Hrows2) as (Hlatest2 & _ & _).
  rewrite Hlatest1 in Hlatest2.
  assert (most_recent u t (users_stocks db2)
          = Some (mkUserStock u t (held u t db + add - add) now3)) as Hlast.
  { apply Hlatest2. intros h Hh. inversion Hh. simpl. lia. }
  split; [|split; [|split; [|split; [|split]]]].
  - rewrite Hdb2, Hdb1. simpl. apply (alter_back _ _ user); [exact Huser|].
    destruct user as [i b c l]. simpl. f_equal; lia.
  - rewrite Hdb2, Hdb1. reflexivity.
  - unfold held at 1. rewrite Hlast. simpl. lia.
  - rewrite Hr1, Hr2. simpl. lia.
  - rewrite Hrows2, Hrows1, !length_app. simpl. lia.
  - rewrite Hdb2, Hdb1. simpl. by rewrite <- app_assoc.
Qed.

Lemma buy_then_sell_back_witness :
  exists r1 db1 r2 db2,
    buyStock "A" "XYZ" 4 true 5 6 db_five = (Ok r1, db1) /\
    sellStock "A" "XYZ" 4 7 8 db1 = (Ok r2, db2) /\
    users db2 = users db_five /\ stocks db2 = stocks db_five /\
    held "A" "XYZ" db2 = held "A" "XYZ" db_five /\
    balance_change r1 + balance_change r2 = 0 /\
    length (users_stocks db2) = (length (users_stocks db_five) + 2)%nat /\
    transactions db2 = transactions db_five ++ [TStock r1; TStock r2].
Proof.
  apply (buy_then_sell_back "A" "XYZ" 4 true 5 6 7 8 db_five
           (mkUser "A" 500 0 0) (mkStock "XYZ" 100)).
  - vm_compute. reflexivity.
  - vm_compute. reflexivity.
  - vm_compute. discriminate.
  - vm_compute. discriminate.
  - intros h Hh. vm_compute in Hh. inversion Hh. vm_compute. reflexivity.
  - vm_compute. reflexivity.
Defined.

(** * The repositories *)

(** ** Sparse updates *)






(** ** Creating, reading and deleting a user *)



(** ** The stocks table *)

(** X15. [StockDAO.updateStock] with a price returns; the stock with that
    ticker, if there is one, gets the new price and keeps its ticker, and for
    a ticker without a row nothing is written.  Every other stock and the
    rest of the store are untouched. *)
Theorem updateStock_sets_the_price t v db :
  exists db',
    StockDAO.updateStock t [(f_price, v)] db = (Ok tt, db') /\
    users db' = users db /\ users_stocks db' = users_stocks db /\
    transactions db' = transactions db /\
    (forall t', t' ≠ t -> stocks db' !! t' = stocks db !! t') /\
    (stocks db !! t = None -> db' = db) /\
    (forall row, stocks db !! t = Some row ->
       stocks db' !! t = Some (mkStock (ticker row) v)).
Proof.
  unfold StockDAO.updateStock, query_update_stocks. simpl.
  eexists. split; [reflexivity|]. simpl. repeat split.
  - intros t' Hne. by rewrite lookup_alter_ne.
  - intros Hnone. destruct db as [us st hs tx]. simpl in *. f_equal.
    apply alter_id. intros x Hx. congruence.
  - intros row Hrow. by rewrite lookup_alter_eq, Hrow.
Qed.

Lemma updateStock_sets_the_price_witness :
  exists db',
    StockDAO.updateStock "XYZ" [(f_price, 120)] db_cash = (Ok tt, db') /\
    stocks db' !! "XYZ" = Some (mkStock "XYZ" 120).
Proof.
  destruct (updateStock_sets_the_price "XYZ" 120 db_cash)
    as (db' & Hrun & _ & _ & _ & _ & _ & Hrow).
  exists db'. split; [exact Hrun|].
  apply (Hrow (mkStock "XYZ" 100)). vm_compute. reflexivity.
Defined.

(** X16. [StockDAO.getAllStocks] returns the rows of the table, each once:
    a stock is in the list exactly when it is the row of some ticker, the
    list has as many entries as the table has rows, and on an empty table it
    is the empty list.  After [createStock] of a new ticker the list has the
    new stock in it and is one longer; after [deleteStock] [getStock] gives
    [null] for that ticker and the list still has every other ticker's
    row. *)
Theorem getAllStocks_lists_the_table db :
  exists rows,
    StockDAO.getAllStocks db = (Ok rows, db) /\
    (forall s, s ∈ rows <-> exists t, stocks db !! t = Some s) /\
    length rows = size (stocks db) /\
    (stocks db = ∅ -> rows = []) /\
    (forall stock, stocks db !! ticker stock = None ->
       exists db1 rows1,
         StockDAO.createStock stock db = (Ok tt, db1) /\
         StockDAO.getAllStocks db1 = (Ok rows1, db1) /\
         stock ∈ rows1 /\ length rows1 = S (length rows)) /\
    (forall t, exists db2 rows2,
       StockDAO.deleteStock t db = (Ok tt, db2) /\
       StockDAO.getStock t db2 = (Ok None, db2) /\
       StockDAO.getAllStocks db2 = (Ok rows2, db2) /\
       (forall t' s, t' ≠ t -> stocks db !! t' = Some s -> s ∈ rows2)).
Proof.
  unfold StockDAO.getAllStocks, StockDAO.createStock, StockDAO.deleteStock,
    StockDAO.getStock, query_insert_stocks.
  eexists. split; [reflexivity|].
  assert (forall (m : gmap string Stock) s,
            s ∈ (map_to_list m).*2 <-> exists t, m !! t = Some s) as Hin.
  { intros m s. rewrite list_elem_of_fmap. split.
    - intros ([t s'] & -> & Hel). exists t. by apply elem_of_map_to_list.
    - intros (t & Ht). exists (t, s). split; [done|]. by apply elem_of_map_to_list. }
  split; [apply Hin|]. split; [by rewrite length_fmap, length_map_to_list|].
  split; [by intros ->; rewrite map_to_list_empty|]. split.
  - intros stock Hnone. rewrite Hnone. do 2 eexists.
    split; [reflexivity|]. split; [reflexivity|]. simpl. split.
    + apply Hin. exists (ticker stock). apply lookup_insert_eq.
    + rewrite !length_fmap, !length_map_to_list. by rewrite map_size_insert_None.
  - intros t. do 2 eexists. split; [reflexivity|]. simpl.
    rewrite lookup_delete_eq. split; [reflexivity|]. split; [reflexivity|].
    intros t' s Hne Hs. apply Hin. exists t'. by rewrite lookup_delete_ne.
Qed.

Lemma getAllStocks_lists_the_table_witness :
  exists rows,
    StockDAO.getAllStocks db_cash = (Ok rows, db_cash) /\
    (forall s, s ∈ rows <-> exists t, stocks db_cash !! t = Some s) /\
    length rows = size (stocks db_cash) /\
    (stocks db_cash = ∅ -> rows = []) /\
    (forall stock, stocks db_cash !! ticker stock = None ->
       exists db1 rows1,
         StockDAO.createStock stock db_cash = (Ok tt, db1) /\
         StockDAO.getAllStocks db1 = (Ok rows1, db1) /\
         stock ∈ rows1 /\ length rows1 = S (length rows)) /\
    (forall t, exists db2 rows2,
       StockDAO.deleteStock t db_cash = (Ok tt, db2) /\
       StockDAO.getStock t db2 = (Ok None, db2) /\
       StockDAO.getAllStocks db2 = (Ok rows2, db2) /\
       (forall t' s, t' ≠ t -> stocks db_cash !! t' = Some s -> s ∈ rows2)).
Proof. exact (getAllStocks_lists_the_table db_cash). Defined.

(** * The services and the pool *)

(** X17. Each method of [StockService] takes one client, and releases it
    exactly when the repository call returns, the [release] call coming
    after the repository call and outside any [finally].  So [getStock] and
    [getAllStocks] always release and return what the repository returned,
    and so does [updateStock] with fields; [updateStock] without fields
    throws the repository's "No fields to update" and never releases the
    client it took, and [createStock] keeps the client whenever the insert is
    refused. *)
Theorem stock_service_and_the_pool s :
  (forall t,
     StockService.getStock t s
     = (Ok (stocks (store s) !! t),
        mkPooled (store s) (S (acquired s)) (S (released s)))) /\
  StockService.getAllStocks s
  = (Ok (map_to_list (stocks (store s))).*2,
     mkPooled (store s) (S (acquired s)) (S (released s))) /\
  (forall t fields,
     fields <> [] ->
     exists db',
       StockDAO.updateStock t fields (store s) = (Ok tt, db') /\
       StockService.updateStock t fields s
       = (Ok tt, mkPooled db' (S (acquired s)) (S (released s)))) /\
  (forall t,
     StockService.updateStock t [] s
     = (Throw (Error "No fields to update"),
        mkPooled (store s) (S (acquired s)) (released s))) /\
  (forall stock,
     StockService.createStock stock s
     = match StockDAO.createStock stock (store s) with
       | (Ok _, db') => (Ok tt, mkPooled db' (S (acquired s)) (S (released s)))
       | (Throw e, db') => (Throw e, mkPooled db' (S (acquired s)) (released s))
       end).
Proof.
  split; [reflexivity|]. split; [reflexivity|]. split; [|split; [reflexivity|]].
  - intros t [|kv fields] Hne; [done|]. eexists. split; reflexivity.
  - intros stock.
    unfold StockService.createStock, StockDAO.createStock, query_insert_stocks,
      pbind, lift, connect, release, pret. simpl.
    destruct (stocks (store s) !! ticker stock); reflexivity.
Qed.

Lemma stock_service_and_the_pool_witness :
  exists db',
    StockDAO.updateStock "XYZ" [(f_price, 120)] db_cash = (Ok tt, db') /\
    StockService.updateStock "XYZ" [(f_price, 120)] (mkPooled db_cash 3 3)
    = (Ok tt, mkPooled db' 4 4).
Proof.
  apply (proj1 (proj2 (proj2 (stock_service_and_the_pool (mkPooled db_cash 3 3))))
           "XYZ" [(f_price, 120)]).
  discriminate.
Defined.


(** * The item action loader *)

Section Loader.

Import ItemActions.

Implicit Types (actions : gmap string (list ItemAction)) (pairs : list ItemFile).

Lemma for_in_keys_NoDup {A} (array : list A) : NoDup (for_in_keys array).
Proof.
  unfold for_in_keys. rewrite imap_seq_0.
  apply NoDup_fmap_2; [apply _ | apply NoDup_seq].
Qed.

Lemma for_in_keys_elem {A} (array : list A) k :
  k ∈ for_in_keys array <-> exists i : nat, (i < length array)%nat /\ k = pretty i.
Proof.
  unfold for_in_keys. rewrite elem_of_lookup_imap. split.
  - intros (i & y & -> & Hy). exists i. split; [|done].
    by eapply lookup_lt_Some.
  - intros (i & Hi & ->). destruct (lookup_lt_is_Some_2 array i Hi) as [y Hy].
    by exists i, y.
Qed.

Lemma register_all_lookup a keys actions k :
  NoDup keys ->
  foldl (register a) actions keys !! k
  = if decide (k ∈ keys) then Some (default [] (actions !! k) ++ [a])
    else actions !! k.
Proof.
  revert actions. induction keys as [|k0 keys IH]; intros actions Hnd.
  - simpl. destruct (decide (k ∈ [])) as [Hin|_]; [by apply elem_of_nil in Hin | done].
  - apply NoDup_cons in Hnd as [Hfresh Hnd]. simpl. rewrite IH by done.
    destruct (decide (k = k0)) as [->|Hne].
    + rewrite (decide_False (P:=k0 ∈ keys)) by done.
      rewrite (decide_True (P:=k0 ∈ k0 :: keys)) by apply list_elem_of_here.
      unfold register. by rewrite lookup_insert_eq.
    + assert (register a actions k0 !! k = actions !! k) as ->
        by (unfold register; by rewrite lookup_insert_ne).
      destruct (decide (k ∈ keys)) as [Hin|Hnot].
      * by rewrite (decide_True (P:=k ∈ k0 :: keys))
          by (by apply list_elem_of_further).
      * rewrite (decide_False (P:=k ∈ k0 :: keys)); [done|].
        intros Hin. apply elem_of_cons in Hin as [?|?]; done.
Qed.

Lemma load_file_lookup_index actions pair (i : nat) :
  load_file actions pair !! pretty i
  = if decide (i < length (itemIds pair))%nat
    then Some (default [] (actions !! pretty i) ++ [action pair])
    else actions !! pretty i.
Proof.
  unfold load_file. rewrite register_all_lookup by apply for_in_keys_NoDup.
  destruct (decide (i < length (itemIds pair))%nat) as [Hlt|Hge].
  - rewrite decide_True; [done|]. apply for_in_keys_elem. eauto.
  - rewrite decide_False; [done|].
    intros Hin. apply for_in_keys_elem in Hin as (j & Hj & Heq).
    apply (inj pretty) in Heq. lia.
Qed.

Lemma load_files_keys pairs actions k :
  is_Some (foldl load_file actions pairs !! k) ->
  is_Some (actions !! k) \/
  exists (i : nat) pair,
    pair ∈ pairs /\ (i < length (itemIds pair))%nat /\ k = pretty i.
Proof.
  revert actions. induction pairs as [|pair pairs IH]; intros actions; [by left|].
  simpl. intros Hsome. apply IH in Hsome as [Hsome|(i & p & Hp & Hi & ->)].
  - unfold load_file in Hsome.
    rewrite register_all_lookup in Hsome by apply for_in_keys_NoDup.
    destruct (decide (k ∈ for_in_keys (itemIds pair))) as [Hin|Hnot]; [|by left].
    apply for_in_keys_elem in Hin as (i & Hi & ->).
    right. exists i, pair. split; [apply list_elem_of_here | done].
  - right. exists i, p. split; [by apply list_elem_of_further | done].
Qed.

Lemma load_files_lookup_index pairs actions (i : nat) :
  foldl load_file actions pairs !! pretty i
  = match action <$> filter (fun p => (i < length (itemIds p))%nat) pairs with
    | [] => actions !! pretty i
    | registered => Some (default [] (actions !! pretty i) ++ registered)
    end.
Proof.
  revert actions. induction pairs as [|pair pairs IH]; intros actions; [done|].
  simpl. rewrite IH, load_file_lookup_index, filter_cons.
  destruct (decide (i < length (itemIds pair))%nat) as [Hlt|Hge]; simpl.
  - change (list_fmap ItemFile ItemAction action ?l) with (action <$> l).
    destruct (action <$> filter _ pairs); [done|].
    by rewrite <- app_assoc.
  - done.
Qed.

(** X21. The loader registers actions under array indices, not under item
    ids: [for (let id in pair.itemIds)] visits the keys ["0"], ["1"], ... of
    the array.  After loading any files, the key for index [i] holds the
    actions of exactly the files whose [itemIds] has more than [i] entries,
    in loading order (and is absent when there is none), and every key that
    holds anything is such an index of some file loaded. *)
Theorem items_are_registered_under_indices pairs :
  (forall i : nat,
     foldl load_file ∅ pairs !! pretty i
     = match action <$> filter (fun p => (i < length (itemIds p))%nat) pairs with
       | [] => None
       | registered => Some registered
       end) /\
  (forall k,
     is_Some (foldl load_file ∅ pairs !! k) ->
     exists (i : nat) pair,
       pair ∈ pairs /\ (i < length (itemIds pair))%nat /\ k = pretty i).
Proof.
  split.
  - intros i. rewrite load_files_lookup_index, lookup_empty. done.
  - intros k Hsome. apply load_files_keys in Hsome as [Hsome|Hsome]; [|done].
    rewrite lookup_empty in Hsome. by destruct Hsome.
Qed.

Lemma items_are_registered_under_indices_witness :
  exists (i : nat) pair,
    pair ∈ [mkItemFile ["sword"; "dagger"] (mkItemAction "slash")] /\
    (i < length (itemIds pair))%nat /\ "1" = pretty i.
Proof.
  apply (proj2 (items_are_registered_under_indices
                  [mkItemFile ["sword"; "dagger"] (mkItemAction "slash")]) "1").
  exists [mkItemAction "slash"]. vm_compute. reflexivity.
Defined.

Lemma load_folder_keys fs folder files actions result k :
  load_folder fs folder actions files = Some result ->
  is_Some (result !! k) ->
  is_Some (actions !! k) \/ exists i : nat, k = pretty i.
Proof.
  unfold load_folder. revert actions.
  induction files as [|file files IH]; intros actions; simpl.
  - intros [= ->]. by left.
  - destruct (require fs ("./commands/" +:+ folder +:+ "/" +:+ file))
      as [pair|]; simpl.
    + intros Hload Hsome. destruct (IH _ Hload Hsome) as [Hk|Hk]; [|by right].
      destruct (load_files_keys [pair] actions k Hk) as [?|(i & _ & _ & _ & ->)];
        [by left | right; by exists i].
    + intros Hload. exfalso. clear IH. revert Hload.
      induction files as [|f files IH]; simpl; [done|exact IH].
Qed.

(** X22. Whatever the folders and files, when the loader's module body runs
    to its end every key of the exported map is the decimal string of an
    array index; the ids listed in [itemIds] are never used as keys. *)
Theorem loaded_actions_are_keyed_by_index fs foldersPath actions k :
  load fs foldersPath = Some actions ->
  is_Some (actions !! k) ->
  exists i : nat, k = pretty i.
Proof.
  unfold load. destruct (readdirSync fs foldersPath) as [itemsFolders|]; [|done].
  simpl. intros Hload Hsome.
  assert (is_Some ((∅ : gmap string (list ItemAction)) !! k) \/
          exists i : nat, k = pretty i) as [Hempty|?]; [|by rewrite lookup_empty in Hempty; destruct Hempty|done].
  revert Hload Hsome. generalize (∅ : gmap string (list ItemAction)).
  induction itemsFolders as [|folder folders IH]; intros start; simpl.
  - intros [= ->]. by left.
  - destruct (endsWith folder ".ts"); [apply IH|].
    destruct (readdirSync fs (foldersPath +:+ "/" +:+ folder)) as [files|]; simpl.
    + destruct (load_folder fs folder start _) as [mid|] eqn:Hfolder; simpl.
      * intros Hload Hsome. destruct (IH _ Hload Hsome) as [Hk|Hk]; [|by right].
        eapply load_folder_keys; eassumption.
      * intros Hload. exfalso. clear IH. revert Hload.
        induction folders as [|f folders IH]; simpl; [done|exact IH].
    + intros Hload. exfalso. clear IH. revert Hload.
      induction folders as [|f folders IH]; simpl; [done|exact IH].
Qed.

Lemma loaded_actions_are_keyed_by_index_witness :
  exists i : nat, "1" = pretty i.
Proof.
  apply (loaded_actions_are_keyed_by_index fs_sample "items"
           (default ∅ (load fs_sample "items")) "1").
  - vm_compute. reflexivity.
  - exists [mkItemAction "slash"]. vm_compute. reflexivity.
Defined.

End Loader.

(** * The embed navigator *)

Section Navigator.

Import EmbedNavigator.

Context {E F : Type}.

Implicit Types (embeds : list E) (files : gmap Z (list F)) (clicks : list Click).

Lemma collect_all_snoc owner embeds files clicks c :
  collect_all owner embeds files (clicks ++ [c])
  = ((collect owner embeds files (collect_all owner embeds files clicks).1 c).1,
     (collect_all owner embeds files clicks).2
       ++ [(collect owner embeds files (collect_all owner embeds files clicks).1 c).2]).
Proof.
  unfold collect_all. rewrite foldl_snoc.
  by destruct (collect owner embeds files _ c).
Qed.

(** One click, from a page that exists. *)
Lemma collect_on_a_page owner embeds files index c :
  0 <= index < Z.of_nat (length embeds) ->
  0 <= (collect owner embeds files index c).1 < Z.of_nat (length embeds) /\
  forall page,
    (collect owner embeds files index c).2 = Updated page ->
    exists (j : nat) e,
      embeds !! j = Some e /\ page_embed page = Embed e /\
      (previous_disabled page = true <-> j = 0%nat) /\
      (next_disabled page = true <-> S j = length embeds) /\
      page_files page = default [] (files !! Z.of_nat j).
Proof.
  intros Hrange. unfold collect.
  destruct (negb (String.eqb (clicker c) owner)); [simpl; split; [lia|discriminate]|].
  set (next_index :=
         if String.eqb (customId c) "previous"
         then if index >? 0 then index - 1 else index
         else if String.eqb (customId c) "next"
              then if index <? Z.of_nat (length embeds) - 1 then index + 1 else index
              else index).
  assert (0 <= next_index < Z.of_nat (length embeds)) as Hnext.
  { subst next_index.
    destruct (String.eqb (customId c) "previous").
    - rewrite Z.gtb_ltb. destruct (Z.ltb_spec 0 index); lia.
    - destruct (String.eqb (customId c) "next"); [|lia].
      destruct (Z.ltb_spec index (Z.of_nat (length embeds) - 1)); lia. }
  simpl. split; [exact Hnext|].
  intros page [= <-]. simpl.
  destruct (lookup_lt_is_Some_2 embeds (Z.to_nat next_index)) as [e He]; [lia|].
  exists (Z.to_nat next_index), e. split; [exact He|].
  unfold embed_at. destruct (Z.ltb_spec next_index 0); [lia|]. rewrite He.
  split; [reflexivity|]. rewrite Z2Nat.id by lia.
  split; [|split; [|reflexivity]].
  - rewrite Z.eqb_eq. lia.
  - rewrite Z.eqb_eq. lia.
Qed.

(** X19. With at least one embed, whatever is clicked and by whom, the
    navigator stays on a page that exists.  The first message shows the
    first embed with Previous disabled, Next disabled exactly when there is
    no second embed, and no files.  After any clicks [currentIndex] is still
    within [0 .. embeds.length - 1]; every update shows the embed at that
    index (never the "No embeds to display." stand-in) with the files
    registered for it, Previous disabled exactly on the first page and Next
    exactly on the last. *)
Theorem navigator_stays_on_a_page owner embeds files clicks :
  embeds <> [] ->
  (exists e,
     embeds !! 0%nat = Some e /\
     first_page (F:=F) embeds
     = Some (mkPage (Embed e) true (bool_decide (length embeds = 1%nat)) [])) /\
  0 <= (collect_all owner embeds files clicks).1 < Z.of_nat (length embeds) /\
  forall page,
    Updated page ∈ (collect_all owner embeds files clicks).2 ->
    exists (j : nat) e,
      embeds !! j = Some e /\ page_embed page = Embed e /\
      (previous_disabled page = true <-> j = 0%nat) /\
      (next_disabled page = true <-> S j = length embeds) /\
      page_files page = default [] (files !! Z.of_nat j).
Proof.
  intros Hne.
  assert (0 < Z.of_nat (length embeds)) as Hlen by (destruct embeds; [done|simpl; lia]).
  split.
  { destruct embeds as [|e [|e' rest]]; [done| |]; exists e; split; reflexivity. }
  induction clicks as [|c clicks IH] using rev_ind.
  - simpl. split; [lia|]. intros page Hin. by apply elem_of_nil in Hin.
  - destruct IH as [Hrange Hpages]. rewrite collect_all_snoc. simpl.
    destruct (collect_on_a_page owner embeds files _ c Hrange) as [Hnext Hpage].
    split; [exact Hnext|].
    intros page Hin. apply elem_of_app in Hin as [Hin|Hin]; [by apply Hpages|].
    apply list_elem_of_singleton in Hin. by apply Hpage.
Qed.

Lemma collect_by_a_stranger owner embeds files index c :
  clicker c <> owner ->
  collect owner embeds files index c
  = (index, Replied "You cannot control this navigation.").
Proof.
  intros Hother. unfold collect.
  by destruct (String.eqb_spec (clicker c) owner).
Qed.

(** X20. Only the user who ran the command navigates.  A click by anyone
    else is answered with "You cannot control this navigation." and leaves
    [currentIndex] where it was, so the page reached is the one reached by
    the owner's clicks alone. *)
Theorem strangers_cannot_navigate owner embeds files clicks :
  (forall index c,
     clicker c <> owner ->
     collect owner embeds files index c
     = (index, Replied "You cannot control this navigation.")) /\
  (collect_all owner embeds files clicks).1
  = (collect_all owner embeds files
       (filter (fun c => clicker c = owner) clicks)).1.
Proof.
  split; [intros; by apply collect_by_a_stranger|].
  induction clicks as [|c clicks IH] using rev_ind; [done|].
  rewrite filter_app, collect_all_snoc, filter_cons, filter_nil. simpl.
  destruct (decide (clicker c = owner)) as [Hown|Hother].
  - rewrite collect_all_snoc. simpl. by rewrite IH.
  - rewrite app_nil_r, collect_by_a_stranger by done. simpl. exact IH.
Qed.

End Navigator.

Lemma navigator_stays_on_a_page_witness :
  0 <= (EmbedNavigator.collect_all (F:=nat) "me" ["a"; "b"]
          ∅ [EmbedNavigator.mkClick "me" "next"; EmbedNavigator.mkClick "me" "next"]).1
    < Z.of_nat (length ["a"; "b"]).
Proof.
  apply (proj1 (proj2 (navigator_stays_on_a_page (F:=nat) "me" ["a"; "b"] ∅
           [EmbedNavigator.mkClick "me" "next"; EmbedNavigator.mkClick "me" "next"]
           ltac:(discriminate)))).
Defined.

Lemma strangers_cannot_navigate_witness :
  EmbedNavigator.collect (F:=nat) "me" ["a"; "b"] ∅ 0
    (EmbedNavigator.mkClick "you" "next")
  = (0, EmbedNavigator.Replied "You cannot control this navigation.").
Proof.
  apply (proj1 (strangers_cannot_navigate (F:=nat) "me" ["a"; "b"] ∅ [])).
  discriminate.
Defined.

(** * The helpers that use the stock service *)

Lemma getAllStocks_rows (m : gmap string Stock) s :
  s ∈ (map_to_list m).*2 <-> exists t, m !! t = Some s.
Proof.
  rewrite list_elem_of_fmap. split.
  - intros ([t s'] & -> & Hel). exists t. by apply elem_of_map_to_list.
  - intros (t & Ht). exists (t, s). split; [done|]. by apply elem_of_map_to_list.
Qed.

(** X23. [chooseRandomStocks(n)], whatever order the random sort leaves:
    it takes one client and releases it, writes nothing, and returns rows of
    the stocks table only.  For [n >= 0] it returns [n] stocks, or all of
    them when there are fewer; a negative [n] is not rejected: [slice(0, n)]
    then drops the last [-n] stocks of the shuffled list and returns the
    rest. *)
Theorem chooseRandomStocks_size shuffle n s :
  (forall l, shuffle l ≡ₚ l) ->
  exists chosen,
    Helpers.chooseRandomStocks shuffle n s
    = (Ok chosen, mkPooled (store s) (S (acquired s)) (S (released s))) /\
    (forall x, x ∈ chosen -> exists t, stocks (store s) !! t = Some x) /\
    (0 <= n -> length chosen = Nat.min (Z.to_nat n) (size (stocks (store s)))) /\
    (n < 0 -> length chosen = (size (stocks (store s)) - Z.to_nat (- n))%nat).
Proof.
  intros Hperm. unfold Helpers.chooseRandomStocks, StockService.getAllStocks,
    StockDAO.getAllStocks, pbind, lift, connect, release, pret. simpl.
  eexists. split; [reflexivity|].
  set (rows := (map_to_list (stocks (store s))).*2).
  assert (length rows = size (stocks (store s))) as Hsize
    by (subst rows; by rewrite length_fmap, length_map_to_list).
  assert (length (shuffle rows) = length rows) as Hlen
    by (by rewrite (Hperm rows)).
  unfold Helpers.slice_to. rewrite Hlen.
  split; [|split].
  - intros x Hx. apply elem_of_take in Hx as (i & Hx & _).
    apply list_elem_of_lookup_2 in Hx. rewrite (Hperm rows) in Hx.
    by apply getAllStocks_rows.
  - intros Hn. rewrite length_take, Hlen, <- Hsize. rewrite Z.gtb_ltb.
    destruct (Z.ltb_spec (Z.of_nat (length rows)) n).
    + destruct (Z.ltb_spec (Z.of_nat (length rows)) 0); lia.
    + destruct (Z.ltb_spec n 0); lia.
  - intros Hn. rewrite length_take, Hlen, <- Hsize. rewrite Z.gtb_ltb.
    destruct (Z.ltb_spec (Z.of_nat (length rows)) n); [lia|].
    destruct (Z.ltb_spec n 0); lia.
Qed.

Lemma chooseRandomStocks_size_witness :
  exists chosen,
    Helpers.chooseRandomStocks reverse 3 (mkPooled db_cash 0 0)
    = (Ok chosen, mkPooled db_cash 1 1) /\
    (forall x, x ∈ chosen -> exists t, stocks db_cash !! t = Some x) /\
    (0 <= 3 -> length chosen = Nat.min (Z.to_nat 3) (size (stocks db_cash))) /\
    (3 < 0 -> length chosen = (size (stocks db_cash) - Z.to_nat (- 3))%nat).
Proof.
  apply (chooseRandomStocks_size reverse 3 (mkPooled db_cash 0 0)).
  intros l. apply reverse_Permutation.
Defined.

(** X24. [stockPriceRandomWalk], whatever the random step comes to.  For an
    unknown ticker it throws [StockNotFoundError] and writes nothing.  For a
    known one it writes, to that stock alone, the stepped price raised to
    [minimumStockPrice] when it falls below: the price stored afterwards is
    never below the minimum.  It takes a client per service call and
    releases each. *)
Theorem stockPriceRandomWalk_keeps_the_minimum minimumStockPrice floored t s :
  (stocks (store s) !! t = None ->
     Helpers.stockPriceRandomWalk minimumStockPrice floored t s
     = (Throw (StockNotFoundError t),
        mkPooled (store s) (S (acquired s)) (S (released s)))) /\
  (forall row,
     stocks (store s) !! t = Some row ->
     exists db',
       Helpers.stockPriceRandomWalk minimumStockPrice floored t s
       = (Ok tt, mkPooled db' (S (S (acquired s))) (S (S (released s)))) /\
       stocks db' !! t
       = Some (mkStock (ticker row) (Z.max (floored (price row)) minimumStockPrice)) /\
       (forall row', stocks db' !! t = Some row' -> minimumStockPrice <= price row') /\
       (forall t', t' ≠ t -> stocks db' !! t' = stocks (store s) !! t') /\
       users db' = users (store s) /\ users_stocks db' = users_stocks (store s) /\
       transactions db' = transactions (store s)).
Proof.
  unfold Helpers.stockPriceRandomWalk, StockService.getStock, StockService.updateStock,
    StockDAO.getStock, StockDAO.updateStock, query_update_stocks,
    pbind, lift, connect, release, pret, pthrow. simpl.
  split.
  - intros ->. reflexivity.
  - intros row Hrow. rewrite Hrow. simpl. eexists. split; [reflexivity|]. simpl.
    rewrite lookup_alter_eq, Hrow. simpl.
    assert ((if floored (price row) <? minimumStockPrice
             then minimumStockPrice else floored (price row))
            = Z.max (floored (price row)) minimumStockPrice) as ->
      by (destruct (Z.ltb_spec (floored (price row)) minimumStockPrice); lia).
    split; [reflexivity|]. split; [intros row' [= <-]; simpl; lia|].
    split; [|done]. intros t' Hne. by rewrite lookup_alter_ne.
Qed.

Lemma stockPriceRandomWalk_keeps_the_minimum_witness :
  Helpers.stockPriceRandomWalk 5 (fun p => p - 1000) "NONE" (mkPooled db_cash 0 0)
  = (Throw (StockNotFoundError "NONE"), mkPooled db_cash 1 1) /\
  exists db',
    Helpers.stockPriceRandomWalk 5 (fun p => p - 1000) "XYZ" (mkPooled db_cash 0 0)
    = (Ok tt, mkPooled db' 2 2) /\
    stocks db' !! "XYZ" = Some (mkStock "XYZ" (Z.max (100 - 1000) 5)).
Proof.
  split.
  - apply (proj1 (stockPriceRandomWalk_keeps_the_minimum 5 (fun p => p - 1000)
                    "NONE" (mkPooled db_cash 0 0))).
    vm_compute. reflexivity.
  - destruct (proj2 (stockPriceRandomWalk_keeps_the_minimum 5 (fun p => p - 1000)
                       "XYZ" (mkPooled db_cash 0 0))
                (mkStock "XYZ" 100)) as (db' & Hrun & Hrow & _).
    + vm_compute. reflexivity.
    + exists db'. split; [exact Hrun | exact Hrow].
Defined.
